(** * Mentor-track: tasks, points ledger, row security and file upload

    A shallow embedding of

    - [supabase/migrations/20250918162251_*.sql]: the tables [profiles] and
      [tasks], their row-level-security policies, the [BEFORE UPDATE]
      timestamp triggers and the [AFTER UPDATE] trigger
      [update_user_points] running [calculate_user_points];
    - [InternDashboard.updateTaskStatus] and [EmployeeDashboard.createTask],
      the two places of the client that write to [tasks];
    - [FileUpload.uploadFiles], the client-side validation and the two
      phases of an upload, with [handleFileSelect] and [removeFile];
    - the listener of [Dashboard] that fetches or creates the profile of
      the signed-in user, [ChatSystem.fetchMessages] and [sendMessage] with
      the table [chat_messages] and its policies, and the figures and the
      leaderboard of the employee's and the admin's dashboard.

    The database is a pair of finite maps keyed by the columns the schema
    declares unique ([profiles.user_id], [tasks.id]), with the column of
    [file_uploads] that refers to a task.  A statement is a
    function from a database to either a new database or an SQLSTATE; an
    error rolls the statement back, so the caller keeps the old database. *)

From Stdlib Require Import ZArith String Ascii List Bool Lia.
From Stdlib Require Import Sorted.
From stdpp Require Import base option gmap strings list fin_maps.

Local Open Scope string_scope.
Local Open Scope Z_scope.

(** ** Values *)

Abbreviation uuid := string (only parsing).

(** [TIMESTAMP WITH TIME ZONE].  The code only stores and compares such
    values with NULL, so they stay the ISO text that [now()] or
    [new Date().toISOString()] produce. *)
Abbreviation timestamptz := string (only parsing).

(** PostgreSQL [INTEGER] is a 32-bit signed integer; [int4pl] and [int4mi]
    raise [22003 numeric_value_out_of_range] instead of wrapping. *)
Definition int4_min : Z := -2147483648.
Definition int4_max : Z := 2147483647.

Definition int4_ok (z : Z) : bool := (int4_min <=? z) && (z <=? int4_max).

(** The SQLSTATE classes the modelled statements can raise. *)
Inductive sqlstate : Type :=
  | insufficient_privilege        (* 42501, a row-security WITH CHECK failed *)
  | check_violation               (* 23514 *)
  | foreign_key_violation         (* 23503 *)
  | unique_violation              (* 23505 *)
  | numeric_value_out_of_range.   (* 22003 *)

Inductive result (A : Type) : Type :=
  | Ok (a : A)
  | Err (e : sqlstate).
Arguments Ok {A} a.
Arguments Err {A} e.

#[global] Instance result_ret : MRet result := fun _ a => Ok a.
#[global] Instance result_bind : MBind result := fun _ _ k m =>
  match m with
  | Ok a => k a
  | Err e => Err e
  end.

Definition int4pl (a b : Z) : result Z :=
  if int4_ok (a + b) then Ok (a + b) else Err numeric_value_out_of_range.

Definition int4mi (a b : Z) : result Z :=
  if int4_ok (a - b) then Ok (a - b) else Err numeric_value_out_of_range.

(** SQL [GREATEST] on two non-null integers. *)
Definition GREATEST (a b : Z) : Z := Z.max a b.

(** SQL [x = y] used as a condition on nullable columns: NULL on either
    side makes the condition not true. *)
Definition sql_eq (a b : option string) : bool :=
  match a, b with
  | Some x, Some y => String.eqb x y
  | _, _ => false
  end.

(** [x IN (...)] on a non-null text value. *)
Definition sql_in (x : string) (l : list string) : bool :=
  existsb (String.eqb x) l.

(** ** Schema *)

Module profiles.
(** [CREATE TABLE public.profiles]; the row is stored under its
    [user_id] ([NOT NULL UNIQUE]). *)
Record row : Type := mk {
  id : uuid;
  email : string;
  full_name : option string;
  role : string;
  department : option string;
  bio : option string;
  avatar_url : option string;
  points : Z;
  created_at : timestamptz;
  updated_at : timestamptz
}.

Definition with_points (z : Z) (p : row) : row :=
  mk (id p) (email p) (full_name p) (role p) (department p) (bio p)
     (avatar_url p) z (created_at p) (updated_at p).

Definition with_updated_at (ts : timestamptz) (p : row) : row :=
  mk (id p) (email p) (full_name p) (role p) (department p) (bio p)
     (avatar_url p) (points p) (created_at p) ts.
End profiles.

Module tasks.
(** [CREATE TABLE public.tasks]; the row is stored under its primary
    key [id]. *)
Record row : Type := mk {
  title : string;
  description : option string;
  status : string;
  priority : string;
  points : Z;
  due_date : option timestamptz;
  assignee_id : option uuid;
  created_by : option uuid;
  completed_at : option timestamptz;
  created_at : timestamptz;
  updated_at : timestamptz
}.

Definition with_updated_at (ts : timestamptz) (t : row) : row :=
  mk (title t) (description t) (status t) (priority t) (points t)
     (due_date t) (assignee_id t) (created_by t) (completed_at t)
     (created_at t) ts.

(** The two [CHECK] constraints of the table. *)
Definition check_constraints (t : row) : bool :=
  sql_in (status t) ["pending"; "in_progress"; "completed"; "overdue"]
  && sql_in (priority t) ["low"; "medium"; "high"].
End tasks.

(** The tables [profiles] and [tasks], and of [public.file_uploads] the
    column [task_id], which [REFERENCES public.tasks(id)]. *)
Record Database : Type := mkDatabase {
  db_profiles : gmap string profiles.row;
  db_tasks : gmap string tasks.row;
  db_file_uploads_task_id : list (option uuid)
}.

Definition set_profiles (m : gmap string profiles.row) (db : Database) : Database :=
  mkDatabase m (db_tasks db) (db_file_uploads_task_id db).

Definition set_tasks (m : gmap string tasks.row) (db : Database) : Database :=
  mkDatabase (db_profiles db) m (db_file_uploads_task_id db).

(** The balance of a user, when the user has a profile. *)
Definition balance (db : Database) (u : uuid) : option Z :=
  profiles.points <$> db_profiles db !! u.

(** ** Sessions and row-level security

    Every table has [ENABLE ROW LEVEL SECURITY] (not [FORCE]): the policies
    bind every role except the table owner and roles with [BYPASSRLS].  A
    session carries what the policies read, [auth.uid()], and whether it
    is bound by them.  Requests of the web client run as a signed-in user
    ([as_user]). *)

Record session : Type := mkSession {
  auth_uid : option uuid;
  bypassrls : bool
}.

Definition as_user (u : uuid) : session := mkSession (Some u) false.

(** [EXISTS (SELECT 1 FROM public.profiles
            WHERE user_id = auth.uid() AND role IN (...))].
    The sub-select reads [profiles] under its own [SELECT] policy, which
    is [USING (true)]. *)
Definition exists_profile_with_role (s : session) (db : Database)
    (roles : list string) : bool :=
  match auth_uid s with
  | Some u =>
      match db_profiles db !! u with
      | Some p => sql_in (profiles.role p) roles
      | None => false
      end
  | None => false
  end.

Module policy.
(** "Users can view all profiles" *)
Definition profiles_select (s : session) (user_id : uuid) : bool := true.

(** "Users can update their own profile": [auth.uid() = user_id] *)
Definition profiles_update (s : session) (user_id : uuid) : bool :=
  sql_eq (auth_uid s) (Some user_id).

(** "Users can view tasks assigned to them or created by them" *)
Definition tasks_select (s : session) (db : Database) (t : tasks.row) : bool :=
  sql_eq (tasks.assignee_id t) (auth_uid s)
  || sql_eq (tasks.created_by t) (auth_uid s)
  || exists_profile_with_role s db ["admin"; "employee"].

(** "Employees and admins can create tasks" *)
Definition tasks_insert (s : session) (db : Database) : bool :=
  exists_profile_with_role s db ["admin"; "employee"].

(** "Employees and admins can update tasks" *)
Definition tasks_update (s : session) (db : Database) : bool :=
  exists_profile_with_role s db ["admin"; "employee"].

(** "Admins can delete tasks" *)
Definition tasks_delete (s : session) (db : Database) : bool :=
  exists_profile_with_role s db ["admin"].
End policy.

(** Which existing rows an [UPDATE ... WHERE ...] may touch: the [USING]
    expressions of the [SELECT] and of the [UPDATE] policy.  A row that
    fails is skipped without an error. *)
Definition profiles_update_visible (s : session) (user_id : uuid) : bool :=
  bypassrls s || (policy.profiles_select s user_id && policy.profiles_update s user_id).

Definition tasks_update_visible (s : session) (db : Database) (t : tasks.row) : bool :=
  bypassrls s || (policy.tasks_select s db t && policy.tasks_update s db).

(** What the written row must satisfy: neither [UPDATE] policy has a
    [WITH CHECK], so its [USING] expression is the check; a failure raises
    42501. *)
Definition profiles_update_check (s : session) (user_id : uuid) : bool :=
  bypassrls s || (policy.profiles_select s user_id && policy.profiles_update s user_id).

Definition tasks_update_check (s : session) (db : Database) (t : tasks.row) : bool :=
  bypassrls s || (policy.tasks_select s db t && policy.tasks_update s db).

Definition tasks_insert_check (s : session) (db : Database) : bool :=
  bypassrls s || policy.tasks_insert s db.

(** ** Triggers on [profiles] and the statement the ledger runs *)

(** [update_updated_at_column], as [update_profiles_updated_at]. *)
Definition update_profiles_updated_at (now : timestamptz) (NEW : profiles.row) : profiles.row :=
  profiles.with_updated_at now NEW.

(** [UPDATE public.profiles SET points = <expr> WHERE user_id = <who>].

    [calculate_user_points] is declared without [SECURITY DEFINER], so the
    statement runs with the rights of the session whose [UPDATE] on
    [tasks] fired the trigger, and the policies of [profiles] apply to it.
    A NULL [who] matches no row. *)
Definition update_profiles_set_points (s : session) (now : timestamptz)
    (expr : Z -> result Z) (who : option uuid) (db : Database) : result Database :=
  match who with
  | None => Ok db
  | Some user_id =>
      match db_profiles db !! user_id with
      | None => Ok db
      | Some OLD =>
          if profiles_update_visible s user_id then
            z ← expr (profiles.points OLD);
            let NEW := update_profiles_updated_at now (profiles.with_points z OLD) in
            if profiles_update_check s user_id
            then Ok (set_profiles (<[user_id := NEW]> (db_profiles db)) db)
            else Err insufficient_privilege
          else Ok db
      end
  end.

(** ** The points ledger *)

(** The two [SET] expressions of the function:
    [points + points_to_add] and
    [GREATEST(0, points - points_to_subtract)]. *)
Definition credit (points_to_add : Z) : Z -> result Z :=
  fun points => int4pl points points_to_add.

Definition debit (points_to_subtract : Z) : Z -> result Z :=
  fun points => z ← int4mi points points_to_subtract; Ok (GREATEST 0 z).

(** [calculate_user_points()], the body of the row trigger
    [update_user_points AFTER UPDATE ON public.tasks]. *)
Definition calculate_user_points (s : session) (now : timestamptz)
    (OLD NEW : tasks.row) (db : Database) : result Database :=
  let points_to_add := 0 in
  let points_to_subtract := 0 in
  (* When task is completed *)
  let points_to_add :=
    if String.eqb (tasks.status NEW) "completed"
       && negb (String.eqb (tasks.status OLD) "completed")
    then tasks.points NEW else points_to_add in
  (* When task becomes overdue *)
  let points_to_subtract :=
    if String.eqb (tasks.status NEW) "overdue"
       && negb (String.eqb (tasks.status OLD) "overdue")
    then 5 else points_to_subtract in
  (* Update user points *)
  db ← (if 0 <? points_to_add
        then update_profiles_set_points s now (credit points_to_add)
               (tasks.assignee_id NEW) db
        else Ok db);
  (if 0 <? points_to_subtract
   then update_profiles_set_points s now (debit points_to_subtract)
          (tasks.assignee_id NEW) db
   else Ok db).

(** ** Statements on [tasks] *)

(** [update_updated_at_column], as [update_tasks_updated_at]. *)
Definition update_tasks_updated_at (now : timestamptz) (NEW : tasks.row) : tasks.row :=
  tasks.with_updated_at now NEW.

(** The [SET] list of an [UPDATE public.tasks]: the columns the request
    names, which may be any column of the table, as the policy restricts
    none.  For a nullable column [Some None] assigns NULL. *)
Record task_patch : Type := mkPatch {
  set_title : option string;
  set_description : option (option string);
  set_status : option string;
  set_priority : option string;
  set_points : option Z;
  set_due_date : option (option timestamptz);
  set_assignee_id : option (option uuid);
  set_created_by : option (option uuid);
  set_completed_at : option (option timestamptz);
  set_id : option uuid;
  set_created_at : option timestamptz;
  set_updated_at : option timestamptz
}.

Definition apply_patch (p : task_patch) (t : tasks.row) : tasks.row :=
  tasks.mk
    (default (tasks.title t) (set_title p))
    (default (tasks.description t) (set_description p))
    (default (tasks.status t) (set_status p))
    (default (tasks.priority t) (set_priority p))
    (default (tasks.points t) (set_points p))
    (default (tasks.due_date t) (set_due_date p))
    (default (tasks.assignee_id t) (set_assignee_id p))
    (default (tasks.created_by t) (set_created_by p))
    (default (tasks.completed_at t) (set_completed_at p))
    (default (tasks.created_at t) (set_created_at p))
    (default (tasks.updated_at t) (set_updated_at p)).

(** The primary key of the row after the [UPDATE]. *)
Definition patched_id (id : uuid) (p : task_patch) : uuid :=
  default id (set_id p).

(** [REFERENCES public.profiles(user_id)]: a non-null key names a profile. *)
Definition references_profile (db : Database) (k : option uuid) : bool :=
  match k with
  | None => true
  | Some u => bool_decide (is_Some (db_profiles db !! u))
  end.

Definition same_key (a b : option uuid) : bool :=
  match a, b with
  | None, None => true
  | Some x, Some y => String.eqb x y
  | _, _ => false
  end.

(** On [UPDATE] a foreign key is looked up again only when its column
    changed. *)
Definition tasks_fk_on_update (OLD NEW : tasks.row) (db : Database) : bool :=
  (same_key (tasks.assignee_id OLD) (tasks.assignee_id NEW)
   || references_profile db (tasks.assignee_id NEW))
  && (same_key (tasks.created_by OLD) (tasks.created_by NEW)
      || references_profile db (tasks.created_by NEW)).

Definition tasks_fk_on_insert (NEW : tasks.row) (db : Database) : bool :=
  references_profile db (tasks.assignee_id NEW)
  && references_profile db (tasks.created_by NEW).

(** [PRIMARY KEY]: the new key of the row is taken when it is another
    row's. *)
Definition tasks_id_taken (id new_id : uuid) (db : Database) : bool :=
  negb (String.eqb new_id id) && bool_decide (is_Some (db_tasks db !! new_id)).

(** [file_uploads.task_id REFERENCES public.tasks(id)], with no action
    [ON UPDATE]: a key that an upload names cannot change. *)
Definition tasks_referenced_on_update (id new_id : uuid) (db : Database) : bool :=
  String.eqb new_id id
  || negb (bool_decide (Some id ∈ db_file_uploads_task_id db)).

(** The table after the row under [id] was replaced by [NEW] under
    [new_id]. *)
Definition written_tasks (id new_id : uuid) (NEW : tasks.row)
    (m : gmap string tasks.row) : gmap string tasks.row :=
  <[new_id := NEW]> (delete id m).

(** [UPDATE public.tasks SET <patch> WHERE id = <id>] in session [s].

    In the order PostgreSQL runs it for the one candidate row: the row
    security of the existing row (a hidden row is no error: zero rows are
    updated), the [BEFORE UPDATE] trigger, the row security of the new
    row, the [CHECK] constraints, the write with its primary key, then
    the [AFTER] row triggers: the foreign keys and [update_user_points]. *)
Definition update_tasks (s : session) (now : timestamptz) (id : uuid)
    (patch : task_patch) (db : Database) : result Database :=
  match db_tasks db !! id with
  | None => Ok db
  | Some OLD =>
      if tasks_update_visible s db OLD then
        let NEW := update_tasks_updated_at now (apply_patch patch OLD) in
        let new_id := patched_id id patch in
        if negb (tasks_update_check s db NEW) then Err insufficient_privilege
        else if negb (tasks.check_constraints NEW) then Err check_violation
        else if tasks_id_taken id new_id db then Err unique_violation
        else
          let db := set_tasks (written_tasks id new_id NEW (db_tasks db)) db in
          if negb (tasks_fk_on_update OLD NEW db
                   && tasks_referenced_on_update id new_id db)
          then Err foreign_key_violation
          else calculate_user_points s now OLD NEW db
      else Ok db
  end.

(** The [VALUES] of an [INSERT INTO public.tasks]; a column left out takes
    its [DEFAULT]. *)
Record task_values : Type := mkValues {
  v_title : string;
  v_description : option string;
  v_status : option string;
  v_priority : option string;
  v_points : option Z;
  v_due_date : option timestamptz;
  v_assignee_id : option uuid;
  v_created_by : option uuid;
  v_completed_at : option timestamptz
}.

Definition new_task_row (now : timestamptz) (v : task_values) : tasks.row :=
  tasks.mk (v_title v) (v_description v)
    (default "pending" (v_status v))
    (default "medium" (v_priority v))
    (default 10 (v_points v))
    (v_due_date v) (v_assignee_id v) (v_created_by v) (v_completed_at v)
    now now.

(** [INSERT INTO public.tasks (...) VALUES (...)] in session [s]; [id] is
    the value [gen_random_uuid()] draws.  The only trigger that names
    [calculate_user_points] is [AFTER UPDATE], so nothing runs here. *)
Definition insert_tasks (s : session) (now : timestamptz) (id : uuid)
    (v : task_values) (db : Database) : result Database :=
  let NEW := new_task_row now v in
  if negb (tasks_insert_check s db) then Err insufficient_privilege
  else if negb (tasks.check_constraints NEW) then Err check_violation
  else
    match db_tasks db !! id with
    | Some _ => Err unique_violation
    | None =>
        if negb (tasks_fk_on_insert NEW db) then Err foreign_key_violation
        else Ok (set_tasks (<[id := NEW]> (db_tasks db)) db)
    end.

(** ** The client: [InternDashboard] and [EmployeeDashboard] *)

Record toast : Type := mkToast {
  toast_title : string;
  toast_description : string;
  toast_variant : option string
}.

(** JavaScript [x || null] on a string: the empty string is falsy. *)
Definition or_null (x : string) : option string :=
  if String.eqb x "" then None else Some x.

(** ** White space

    A string is kept as the bytes of its UTF-8 encoding, as the string
    literals of this file are.  [String.prototype.trim] strips the code
    points ECMAScript calls WhiteSpace and LineTerminator: U+0009 to
    U+000D and U+0020, which take one byte; U+00A0, which takes two (C2
    A0); and U+1680, U+2000 to U+200A, U+2028, U+2029, U+202F, U+205F,
    U+3000 and U+FEFF, which take three. *)
Definition white_space_1 (c : ascii) : bool :=
  let n := nat_of_ascii c in
  ((9 <=? n) && (n <=? 13))%nat || (n =? 32)%nat.

Definition white_space_2 (c1 c2 : ascii) : bool :=
  ((nat_of_ascii c1 =? 194) && (nat_of_ascii c2 =? 160))%nat.

Definition white_space_3 (c1 c2 c3 : ascii) : bool :=
  let n1 := nat_of_ascii c1 in
  let n2 := nat_of_ascii c2 in
  let n3 := nat_of_ascii c3 in
  ((* U+1680: E1 9A 80 *)
   ((n1 =? 225) && (n2 =? 154) && (n3 =? 128))
   (* U+2000 to U+200A, U+2028, U+2029, U+202F: E2 80 80..8A, A8, A9, AF *)
   || ((n1 =? 226) && (n2 =? 128)
       && (((128 <=? n3) && (n3 <=? 138)) || (n3 =? 168) || (n3 =? 169)
           || (n3 =? 175)))
   (* U+205F: E2 81 9F *)
   || ((n1 =? 226) && (n2 =? 129) && (n3 =? 159))
   (* U+3000: E3 80 80 *)
   || ((n1 =? 227) && (n2 =? 128) && (n3 =? 128))
   (* U+FEFF: EF BB BF *)
   || ((n1 =? 239) && (n2 =? 187) && (n3 =? 191)))%nat.

(** What is left of [x] behind one white-space code point at its start,
    if [x] starts with one. *)
Definition white_space_prefix (x : string) : option string :=
  match x with
  | String c1 x1 =>
      if white_space_1 c1 then Some x1 else
      match x1 with
      | String c2 x2 =>
          if white_space_2 c1 c2 then Some x2 else
          match x2 with
          | String c3 x3 => if white_space_3 c1 c2 c3 then Some x3 else None
          | EmptyString => None
          end
      | EmptyString => None
      end
  | EmptyString => None
  end.

(** [x.trimStart()] *)
Fixpoint trimStart (x : string) : string :=
  match x with
  | String c1 x1 =>
      if white_space_1 c1 then trimStart x1 else
      match x1 with
      | String c2 x2 =>
          if white_space_2 c1 c2 then trimStart x2 else
          match x2 with
          | String c3 x3 => if white_space_3 c1 c2 c3 then trimStart x3 else x
          | EmptyString => x
          end
      | EmptyString => x
      end
  | EmptyString => x
  end.

(** Whether [x] is a sequence of white-space code points. *)
Fixpoint all_white_space (x : string) : bool :=
  match x with
  | String c1 x1 =>
      if white_space_1 c1 then all_white_space x1 else
      match x1 with
      | String c2 x2 =>
          if white_space_2 c1 c2 then all_white_space x2 else
          match x2 with
          | String c3 x3 =>
              if white_space_3 c1 c2 c3 then all_white_space x3 else false
          | EmptyString => false
          end
      | EmptyString => false
      end
  | EmptyString => true
  end.

(** [x.trimEnd()]: the string is cut where only white space follows.  A
    byte inside a code point never starts a white-space code point, so
    the cut falls between code points. *)
Fixpoint trimEnd (x : string) : string :=
  match x with
  | EmptyString => EmptyString
  | String c x' => if all_white_space x then EmptyString else String c (trimEnd x')
  end.

(** [x.trim()] *)
Definition trim (x : string) : string := trimEnd (trimStart x).

(** [updateTaskStatus(taskId, status)] of [InternDashboard], run by the
    signed-in session [s].  [toISOString] is what
    [new Date().toISOString()] gives at the call, [now] the time of the
    database.  The client looks only at [error]: an [UPDATE] that matched
    no row is reported like one that wrote. *)
Definition updateTaskStatus (s : session) (now toISOString : timestamptz)
    (taskId : uuid) (status : string) (db : Database) : Database * toast :=
  let completed_at :=
    if String.eqb status "completed" then Some toISOString else None in
  let patch :=
    mkPatch None None (Some status) None None None None None (Some completed_at)
      None None None in
  match update_tasks s now taskId patch db with
  | Err _ => (db, mkToast "Error" "Failed to update task" (Some "destructive"))
  | Ok db' => (db', mkToast "Success" ("Task marked as " ++ status) None)
  end.

(** The form state [newTask] of [EmployeeDashboard]. *)
Record NewTask : Type := mkNewTask {
  nt_title : string;
  nt_description : string;
  nt_priority : string;
  nt_points : Z;
  nt_due_date : string;
  nt_assignee_id : string
}.

Definition initial_newTask : NewTask := mkNewTask "" "" "medium" 10 "" "".

Record EmployeeDashboardState : Type := mkEmployeeDashboardState {
  showCreateTask : bool;
  newTask : NewTask
}.

(** [createTask()] of [EmployeeDashboard]; [profile_user_id] is
    [profile.user_id] of the component's [profile] prop. *)
Definition createTask (s : session) (now : timestamptz) (id : uuid)
    (profile_user_id : uuid) (st : EmployeeDashboardState) (db : Database)
    : Database * EmployeeDashboardState * toast :=
  let newTask := newTask st in
  if String.eqb (trim (nt_title newTask)) "" then
    (db, st, mkToast "Error" "Task title is required" (Some "destructive"))
  else
    let values :=
      mkValues (nt_title newTask) (or_null (nt_description newTask)) None
        (Some (nt_priority newTask)) (Some (nt_points newTask))
        (or_null (nt_due_date newTask)) (or_null (nt_assignee_id newTask))
        (Some profile_user_id) None in
    match insert_tasks s now id values db with
    | Err _ => (db, st, mkToast "Error" "Failed to create task" (Some "destructive"))
    | Ok db' =>
        (db', mkEmployeeDashboardState false initial_newTask,
         mkToast "Success" "Task created successfully" None)
    end.

(** ** Histories of statements on [tasks] *)

Inductive statement : Type :=
  | INSERT (s : session) (now : timestamptz) (id : uuid) (v : task_values)
  | UPDATE (s : session) (now : timestamptz) (id : uuid) (patch : task_patch).

(** A statement that raises is rolled back. *)
Definition execute (db : Database) (q : statement) : Database :=
  match q with
  | INSERT s now id v =>
      match insert_tasks s now id v db with Ok db' => db' | Err _ => db end
  | UPDATE s now id patch =>
      match update_tasks s now id patch db with Ok db' => db' | Err _ => db end
  end.

Definition execute_all (db : Database) (qs : list statement) : Database :=
  fold_left execute qs db.

(** ** A small database to run the statements on

    Ada is an intern, Eve an employee; task [t1] was created by Eve. *)
Module sample.
Definition ada : uuid := "ada".
Definition eve : uuid := "eve".
Definition t1 : uuid := "task-1".
Definition t2 : uuid := "task-2".

Definition created : timestamptz := "2025-09-18T16:22:51Z".
Definition now : timestamptz := "2025-09-19T09:00:00Z".
(** What [new Date().toISOString()] gives in the browser. *)
Definition clock : timestamptz := "2025-09-19T09:00:00.250Z".

Definition profile (id : uuid) (role : string) (points : Z) : profiles.row :=
  profiles.mk id "user@example.org" None role None None None points created created.

Definition task (status : string) (points : Z) (assignee : option uuid)
    (completed_at : option timestamptz) : tasks.row :=
  tasks.mk "Write report" None status "medium" points None assignee
    (Some eve) completed_at created created.

Definition people (ada_points eve_points : Z) : gmap string profiles.row :=
  <[ada := profile "profile-ada" "intern" ada_points]>
    (<[eve := profile "profile-eve" "employee" eve_points]> ∅).

(** Task [t1] is assigned to Ada. *)
Definition db (ada_points : Z) (status : string) (task_points : Z) : Database :=
  mkDatabase (people ada_points 0)
    (<[t1 := task status task_points (Some ada) None]> ∅) [].

(** Task [t1] is assigned to Eve herself. *)
Definition db_own (eve_points : Z) (status : string) (task_points : Z) : Database :=
  mkDatabase (people 0 eve_points)
    (<[t1 := task status task_points (Some eve) None]> ∅) [].

(** A session that the policies do not bind (the table owner, or a
    role with [BYPASSRLS]). *)
Definition owner : session := mkSession None true.

Definition set_status (status : string) : task_patch :=
  mkPatch None None (Some status) None None None None None None None None None.
End sample.

(** ** The client: [FileUpload] *)

(** The [String.prototype] methods [uploadFiles] calls, on a string
    pattern. *)
Module js.
Definition startsWith (x searchString : string) : bool :=
  String.prefix searchString x.

Definition endsWith (x searchString : string) : bool :=
  let n := String.length x in
  let m := String.length searchString in
  (m <=? n)%nat && String.eqb (String.substring (n - m) m x) searchString.

Definition includes (x searchString : string) : bool :=
  match String.index 0 searchString x with
  | Some _ => true
  | None => false
  end.

(** [x.replace(pattern, replacement)] with a string pattern: the first
    occurrence only. *)
Definition replace (x pattern replacement : string) : string :=
  match String.index 0 pattern x with
  | Some i =>
      String.substring 0 i x ++ replacement
      ++ String.substring (i + String.length pattern)
           (String.length x - (i + String.length pattern)) x
  | None => x
  end.

(** [x.split(separator)] with a one-character separator; [acc] is the
    piece being read, reversed. *)
Fixpoint split_from (acc : string) (x : string) (separator : ascii) : list string :=
  match x with
  | EmptyString => [String.rev acc]
  | String c x' =>
      if Ascii.eqb c separator
      then String.rev acc :: split_from EmptyString x' separator
      else split_from (String c acc) x' separator
  end.

Definition split (x : string) (separator : ascii) : list string :=
  split_from EmptyString x separator.

(** [Array.prototype.pop] read for its value, on an array that is not
    empty. *)
Definition pop (l : list string) : string := List.last l "".
End js.

Module File.
(** The fields of a DOM [File] the component reads. *)
Record t : Type := mk {
  name : string;
  type : string;
  size : Z
}.
End File.

Module file_uploads.
(** The columns of [public.file_uploads] the client sends. *)
Record row : Type := mk {
  filename : string;
  original_name : string;
  file_path : string;
  file_size : Z;
  mime_type : string;
  task_id : option uuid;
  uploaded_by : uuid
}.
End file_uploads.

Module FileUpload.

Record UploadFile : Type := mkUploadFile {
  id : string;
  file : File.t;
  progress : Z;
  status : string;        (* 'uploading' | 'success' | 'error' *)
  error : option string
}.

(** What [uploadFiles] reads and writes: the component state [files],
    the objects of the storage bucket ['files'], the rows of
    [file_uploads], the toasts shown and how many UUIDs were drawn. *)
Record World : Type := mkWorld {
  files : list UploadFile;
  objects : list (string * File.t);
  rows : list file_uploads.row;
  toasts : list toast;
  drawn : nat
}.

Definition allowedTypes : list string :=
  ["image/*"; "application/pdf"; "text/*"; ".doc"; ".docx"].

(** [allowedTypes.some(type => type.includes('*') ? ... : ...)] *)
Definition isAllowed (f : File.t) : bool :=
  existsb (fun type =>
    if js.includes type "*"
    then js.startsWith (File.type f) (js.replace type "*" "")
    else js.endsWith (File.name f) type) allowedTypes.

(** The two checks under [// Validate file]; the text is the message
    of the [Error] thrown. *)
Definition validate (f : File.t) : option string :=
  if 5 * 1024 * 1024 <? File.size f
  then Some "File size must be less than 5MB"
  else if negb (isAllowed f)
  then Some "File type not allowed. Please upload images, PDFs, or documents."
  else None.

(** [setFiles(prev => prev.map(f => f.id === id ? g f : f))] *)
Definition setFiles_at (id : string) (g : UploadFile -> UploadFile)
    (fs : list UploadFile) : list UploadFile :=
  map (fun f => if String.eqb (FileUpload.id f) id then g f else f) fs.

Section collaborators.
(** The collaborators the component calls: [crypto.randomUUID()] (its
    [n]-th draw), [supabase.storage.from('files').upload] and
    [supabase.from('file_uploads').insert], each answering with the
    message of its error or with none. *)
Variable randomUUID : nat -> string.
Variable uploadError : list (string * File.t) -> string -> File.t -> option string.
Variable dbError : list file_uploads.row -> file_uploads.row -> option string.

(** The props [taskId] and [userId] of the component. *)
Variable taskId : option string.
Variable userId : string.

(** The body of [try { ... }] for one file: the world it leaves and
    the message of the exception thrown, if one is.  The timer that
    animates [progress] up to 90 while the upload runs is left out. *)
Definition try_upload (uploadFile : UploadFile) (w : World) : World * option string :=
  let f := file uploadFile in
  match validate f with
  | Some message => (w, Some message)
  | None =>
      (* Generate unique filename *)
      let fileExt := js.pop (js.split (File.name f) "."%char) in
      let fileName := randomUUID (drawn w) ++ "." ++ fileExt in
      let filePath := "uploads/" ++ fileName in
      let w := mkWorld (files w) (objects w) (rows w) (toasts w) (S (drawn w)) in
      (* Upload to Supabase Storage *)
      match uploadError (objects w) filePath f with
      | Some message => (w, Some message)
      | None =>
          let w := mkWorld (files w) (objects w ++ [(filePath, f)]) (rows w)
                     (toasts w) (drawn w) in
          (* Save file record to database *)
          let record :=
            file_uploads.mk fileName (File.name f) filePath (File.size f)
              (File.type f)
              (match taskId with Some x => or_null x | None => None end)
              userId in
          match dbError (rows w) record with
          | Some message => (w, Some message)
          | None =>
              let w := mkWorld (files w) (objects w) (rows w ++ [record])
                         (toasts w) (drawn w) in
              let w := mkWorld
                (setFiles_at (id uploadFile)
                   (fun f => mkUploadFile (id f) (file f) 100 "success" (error f))
                   (files w))
                (objects w) (rows w)
                (toasts w ++ [mkToast "Upload successful"
                                (File.name f ++ " has been uploaded") None])
                (drawn w) in
              (w, None)
          end
      end
  end.

(** One turn of [for (const uploadFile of filesToUpload)], with its
    [catch]. *)
Definition upload_one (w : World) (uploadFile : UploadFile) : World :=
  match try_upload uploadFile w with
  | (w, None) => w
  | (w, Some message) =>
      mkWorld
        (setFiles_at (id uploadFile)
           (fun f => mkUploadFile (id f) (file f) (progress f) "error" (Some message))
           (files w))
        (objects w) (rows w)
        (toasts w ++ [mkToast "Upload failed" message (Some "destructive")])
        (drawn w)
  end.

Definition uploadFiles (filesToUpload : list UploadFile) (w : World) : World :=
  fold_left upload_one filesToUpload w.
End collaborators.
End FileUpload.

(** ** The vocabulary of the properties *)

(** No profile has a negative balance. *)
Definition points_nonnegative (db : Database) : Prop :=
  map_Forall (fun _ p => 0 <= profiles.points p) (db_profiles db).

(** [completed_at] is set exactly when the task is completed. *)
Definition completed_at_consistent (t : tasks.row) : Prop :=
  tasks.completed_at t <> None <-> tasks.status t = "completed".

Definition tasks_consistent (db : Database) : Prop :=
  map_Forall (fun _ t => completed_at_consistent t) (db_tasks db).

(** The row an [UPDATE] on [tasks] writes: the patch applied to the
    stored row, then the [BEFORE UPDATE] trigger. *)
Definition written_row (now : timestamptz) (patch : task_patch)
    (OLD : tasks.row) : tasks.row :=
  update_tasks_updated_at now (apply_patch patch OLD).

(** The ceiling of [uploadFiles], 5 MiB in bytes. *)
Definition ceiling : Z := 5 * 1024 * 1024.

(** Every stored object and every metadata row is within the ceiling. *)
Definition within_ceiling (w : FileUpload.World) : Prop :=
  Forall (fun o => File.size o.2 <= ceiling) (FileUpload.objects w)
  /\ Forall (fun r => file_uploads.file_size r <= ceiling) (FileUpload.rows w).

(** A file of 6 MiB, as the component holds it when the upload starts. *)
Definition six_MiB_file : FileUpload.UploadFile :=
  FileUpload.mkUploadFile "f1" (File.mk "scan.png" "image/png" (6 * 1024 * 1024))
    0 "uploading" None.

(** ** [Dashboard]: the profile of the signed-in user *)

(** The [VALUES] of an [INSERT INTO public.profiles]; a column left out
    takes its [DEFAULT].  [user_id] references [auth.users], a table of the
    authentication service: the identifiers handed to the statement are
    taken to be those of existing users. *)
Record profile_values : Type := mkProfileValues {
  pv_user_id : uuid;
  pv_email : string;
  pv_full_name : option string;
  pv_role : option string;
  pv_department : option string;
  pv_bio : option string;
  pv_avatar_url : option string;
  pv_points : option Z
}.

Definition new_profile_row (now : timestamptz) (id : uuid) (v : profile_values)
    : profiles.row :=
  profiles.mk id (pv_email v) (pv_full_name v)
    (default "intern" (pv_role v))
    (pv_department v) (pv_bio v) (pv_avatar_url v)
    (default 0 (pv_points v))
    now now.

(** [CHECK (role IN ('intern', 'employee', 'admin'))] *)
Definition profiles_check_constraints (p : profiles.row) : bool :=
  sql_in (profiles.role p) ["intern"; "employee"; "admin"].

(** "Users can insert their own profile": [WITH CHECK (auth.uid() = user_id)] *)
Definition profiles_insert_check (s : session) (user_id : uuid) : bool :=
  bypassrls s || sql_eq (auth_uid s) (Some user_id).

(** Whether some profile already has the primary key [id]. *)
Definition profile_id_taken (id : uuid) (m : gmap string profiles.row) : bool :=
  negb (bool_decide (map_Forall (fun _ p => profiles.id p <> id) m)).

(** [INSERT INTO public.profiles (...) VALUES (...)] in session [s]; [id]
    is the value [gen_random_uuid()] draws.  No trigger is declared for
    [INSERT]. *)
Definition insert_profiles (s : session) (now : timestamptz) (id : uuid)
    (v : profile_values) (db : Database) : result Database :=
  let NEW := new_profile_row now id v in
  if negb (profiles_insert_check s (pv_user_id v)) then Err insufficient_privilege
  else if negb (profiles_check_constraints NEW) then Err check_violation
  else if profile_id_taken id (db_profiles db) then Err unique_violation
  else
    match db_profiles db !! pv_user_id v with
    | Some _ => Err unique_violation
    | None => Ok (set_profiles (<[pv_user_id v := NEW]> (db_profiles db)) db)
    end.

(** What the component reads of [session.user]: its [id], its [email] and
    the three entries of [user_metadata] ([None] when the entry is
    missing). *)
Record User : Type := mkUser {
  user_id : uuid;
  user_email : string;
  meta_full_name : option string;
  meta_role : option string;
  meta_department : option string
}.

(** JavaScript [x || null] and [x || d] on a string that may be
    undefined. *)
Definition opt_or_null (x : option string) : option string :=
  match x with
  | Some y => or_null y
  | None => None
  end.

Definition opt_or (x : option string) (d : string) : string :=
  match x with
  | Some y => if String.eqb y "" then d else y
  | None => d
  end.

(** The listener [Dashboard] hands to [supabase.auth.onAuthStateChange],
    for a session with a user: fetch the user's profile or create it from
    the metadata given at sign-up.  The result is the database, the
    profile handed to [setProfile], if one is, and the toast shown, if one
    is. *)
Definition onAuthStateChange (now : timestamptz) (id : uuid) (user : User)
    (db : Database) : Database * option profiles.row * option toast :=
  match db_profiles db !! user_id user with
  | Some existingProfile => (db, Some existingProfile, None)
  | None =>
      let values :=
        mkProfileValues (user_id user) (user_email user)
          (opt_or_null (meta_full_name user))
          (Some (opt_or (meta_role user) "intern"))
          (opt_or_null (meta_department user))
          None None None in
      match insert_profiles (as_user (user_id user)) now id values db with
      | Err _ =>
          (db, None,
           Some (mkToast "Profile Error" "Failed to create user profile"
                   (Some "destructive")))
      | Ok db' => (db', db_profiles db' !! user_id user, None)
      end
  end.

(** ** Calls of the client on [tasks], one after the other *)

Inductive client_call : Type :=
  | CreateTask (s : session) (now : timestamptz) (id : uuid)
      (profile_user_id : uuid) (st : EmployeeDashboardState)
  | UpdateTaskStatus (s : session) (now toISOString : timestamptz)
      (taskId : uuid) (status : string).

Definition client_step (db : Database) (c : client_call) : Database :=
  match c with
  | CreateTask s now id profile_user_id st =>
      (createTask s now id profile_user_id st db).1.1
  | UpdateTaskStatus s now toISOString taskId status =>
      (updateTaskStatus s now toISOString taskId status db).1
  end.

Definition client_run (db : Database) (cs : list client_call) : Database :=
  fold_left client_step cs db.

(** ** [chat_messages] and [ChatSystem] *)

Module chat_messages.
(** [CREATE TABLE public.chat_messages]; the row is stored under its
    primary key [id]. *)
Record row : Type := mk {
  content : string;
  sender_id : uuid;
  receiver_id : uuid;
  read_at : option timestamptz;
  created_at : timestamptz
}.

Definition with_read_at (ts : option timestamptz) (r : row) : row :=
  mk (content r) (sender_id r) (receiver_id r) ts (created_at r).
End chat_messages.

Module chat_policy.
(** "Users can view messages they sent or received" *)
Definition select (s : session) (r : chat_messages.row) : bool :=
  sql_eq (Some (chat_messages.sender_id r)) (auth_uid s)
  || sql_eq (Some (chat_messages.receiver_id r)) (auth_uid s).

(** "Users can send messages": [WITH CHECK (sender_id = auth.uid())] *)
Definition insert (s : session) (r : chat_messages.row) : bool :=
  sql_eq (Some (chat_messages.sender_id r)) (auth_uid s).
End chat_policy.

(** [INSERT INTO public.chat_messages (content, sender_id, receiver_id)
    VALUES (...)] in session [s]; both users must have a profile. *)
Definition insert_chat_messages (s : session) (now : timestamptz) (id : uuid)
    (content : string) (sender_id receiver_id : uuid)
    (db : Database) (m : gmap string chat_messages.row)
    : result (gmap string chat_messages.row) :=
  let NEW := chat_messages.mk content sender_id receiver_id None now in
  if negb (bypassrls s || chat_policy.insert s NEW) then Err insufficient_privilege
  else
    match m !! id with
    | Some _ => Err unique_violation
    | None =>
        if negb (references_profile db (Some sender_id)
                 && references_profile db (Some receiver_id))
        then Err foreign_key_violation
        else Ok (<[id := NEW]> m)
    end.

(** The filter of [fetchMessages]:
    [or(and(sender_id.eq.a, receiver_id.eq.b),
        and(sender_id.eq.b, receiver_id.eq.a))]. *)
Definition between (a b : uuid) (r : chat_messages.row) : bool :=
  (String.eqb (chat_messages.sender_id r) a && String.eqb (chat_messages.receiver_id r) b)
  || (String.eqb (chat_messages.sender_id r) b && String.eqb (chat_messages.receiver_id r) a).

(** The rows [SELECT * FROM chat_messages WHERE <between a b>] returns in
    session [s]; [ORDER BY created_at] then arranges these rows. *)
Definition select_chat_messages (s : session) (a b : uuid)
    (m : gmap string chat_messages.row) : gmap string chat_messages.row :=
  filter (fun kr => (bypassrls s || chat_policy.select s kr.2) && between a b kr.2 = true) m.

(** [UPDATE chat_messages SET read_at = <ts> WHERE receiver_id = <receiver>
    AND sender_id = <sender> AND read_at IS NULL].  The table has row
    security enabled and no policy for [UPDATE]: a session the policies
    bind can update no row. *)
Definition update_chat_messages_read_at (s : session) (ts : timestamptz)
    (receiver sender : uuid) (m : gmap string chat_messages.row)
    : gmap string chat_messages.row :=
  if bypassrls s then
    (fun r =>
       if String.eqb (chat_messages.receiver_id r) receiver
          && String.eqb (chat_messages.sender_id r) sender
          && negb (bool_decide (is_Some (chat_messages.read_at r)))
       then chat_messages.with_read_at (Some ts) r
       else r) <$> m
  else m.

(** [fetchMessages()] of [ChatSystem]: the rows shown (none when no user
    is selected) and the table after "Mark messages as read". *)
Definition fetchMessages (s : session) (toISOString : timestamptz)
    (currentUser selectedUser : uuid) (m : gmap string chat_messages.row)
    : option (gmap string chat_messages.row) * gmap string chat_messages.row :=
  if String.eqb selectedUser "" then (None, m)
  else
    (Some (select_chat_messages s currentUser selectedUser m),
     update_chat_messages_read_at s toISOString currentUser selectedUser m).

(** [sendMessage()] of [ChatSystem]: the table, the input [newMessage]
    and the toast shown, if one is.  After a successful insert the
    component clears the input and calls [fetchMessages]. *)
Definition sendMessage (s : session) (now toISOString : timestamptz) (id : uuid)
    (currentUser selectedUser : uuid) (newMessage : string)
    (db : Database) (m : gmap string chat_messages.row)
    : gmap string chat_messages.row * string * option toast :=
  if String.eqb (trim newMessage) "" || String.eqb selectedUser "" then
    (m, newMessage, None)
  else
    match insert_chat_messages s now id newMessage currentUser selectedUser db m with
    | Err _ =>
        (m, newMessage,
         Some (mkToast "Error" "Failed to send message" (Some "destructive")))
    | Ok m' => ((fetchMessages s toISOString currentUser selectedUser m').2, "", None)
    end.

(** ** The figures of the dashboards *)

Module EmployeeDashboard.
(** [tasks.filter(t => t.status === 'completed').length] and its two
    siblings. *)
Definition completedTasks (tasks : list tasks.row) : nat :=
  length (List.filter (fun t => String.eqb (tasks.status t) "completed") tasks).

Definition activeTasks (tasks : list tasks.row) : nat :=
  length (List.filter (fun t => String.eqb (tasks.status t) "pending"
                                || String.eqb (tasks.status t) "in_progress") tasks).

Definition overdueTasks (tasks : list tasks.row) : nat :=
  length (List.filter (fun t => String.eqb (tasks.status t) "overdue") tasks).
End EmployeeDashboard.

Module Array.
(** [Array.prototype.sort(compareFn)]: the sort is stable, so with a
    comparator that orders its arguments consistently the result is the
    one stable arrangement, computed here by insertion from the right. *)
Fixpoint insert {A : Type} (compareFn : A -> A -> Z) (x : A) (l : list A) : list A :=
  match l with
  | [] => [x]
  | y :: l' =>
      if compareFn x y <=? 0 then x :: y :: l' else y :: insert compareFn x l'
  end.

Fixpoint sort {A : Type} (compareFn : A -> A -> Z) (l : list A) : list A :=
  match l with
  | [] => []
  | x :: l' => insert compareFn x (sort compareFn l')
  end.

(** [slice(0, n)] *)
Definition slice0 {A : Type} (n : nat) (l : list A) : list A := firstn n l.
End Array.

Module AdminDashboard.
Definition totalUsers (users : list profiles.row) : nat := length users.

Definition totalInterns (users : list profiles.row) : nat :=
  length (List.filter (fun u => String.eqb (profiles.role u) "intern") users).

Definition totalEmployees (users : list profiles.row) : nat :=
  length (List.filter (fun u => String.eqb (profiles.role u) "employee") users).

(** [users.filter(u => u.role === 'intern')
         .sort((a, b) => b.points - a.points).slice(0, 5)] *)
Definition topInterns (users : list profiles.row) : list profiles.row :=
  Array.slice0 5
    (Array.sort (fun a b => profiles.points b - profiles.points a)
       (List.filter (fun u => String.eqb (profiles.role u) "intern") users)).
End AdminDashboard.

(** ** [FileUpload]: selecting and removing files *)

Module FileUpload_events.
Import FileUpload.

(** [removeFile(fileId)]: [setFiles(prev => prev.filter(f => f.id !== fileId))] *)
Definition removeFile (fileId : string) (w : World) : World :=
  mkWorld (List.filter (fun f => negb (String.eqb (id f) fileId)) (files w))
    (objects w) (rows w) (toasts w) (drawn w).

Section collaborators.
Variable randomUUID : nat -> string.
Variable uploadError : list (string * File.t) -> string -> File.t -> option string.
Variable dbError : list file_uploads.row -> file_uploads.row -> option string.
Variable taskId : option string.
Variable userId : string.

(** [Array.from(selectedFiles).map(file => ({ id: crypto.randomUUID(),
    file, progress: 0, status: 'uploading' }))], the first draw being
    the [n]-th. *)
Fixpoint newFiles (n : nat) (selectedFiles : list File.t) : list UploadFile :=
  match selectedFiles with
  | [] => []
  | f :: fs => mkUploadFile (randomUUID n) f 0 "uploading" None :: newFiles (S n) fs
  end.

(** [handleFileSelect(selectedFiles)] *)
Definition handleFileSelect (selectedFiles : list File.t) (w : World) : World :=
  let newFiles := newFiles (drawn w) selectedFiles in
  let w := mkWorld (files w ++ newFiles) (objects w) (rows w) (toasts w)
             (drawn w + length selectedFiles) in
  uploadFiles randomUUID uploadError dbError taskId userId newFiles w.
End collaborators.
End FileUpload_events.

(** The invariants of the upload: every metadata row points at a stored
    object; a final status is ['success'] or ['error']. *)
Definition rows_have_objects (w : FileUpload.World) : Prop :=
  Forall (fun r => exists f, (file_uploads.file_path r, f) ∈ FileUpload.objects w)
    (FileUpload.rows w).

Definition settled (e : FileUpload.UploadFile) : Prop :=
  FileUpload.status e = "success" \/ FileUpload.status e = "error".

(** A string of white space only (the empty string included): a
    sequence of white-space code points. *)
Inductive blank : string -> Prop :=
  | blank_empty : blank ""
  | blank_white_space (x rest : string) :
      white_space_prefix x = Some rest -> blank rest -> blank x.

(** U+00A0 NO-BREAK SPACE and U+00E0 (a with grave), as their bytes. *)
Definition no_break_space : string :=
  String (ascii_of_nat 194) (String (ascii_of_nat 160) "").

Definition a_grave : string :=
  String (ascii_of_nat 195) (String (ascii_of_nat 160) "").

(** A statement that names neither the key nor [created_at] of a stored
    task: an [INSERT], or an [UPDATE] whose [SET] list has neither. *)
Definition keeps_key (q : statement) : Prop :=
  match q with
  | INSERT _ _ _ _ => True
  | UPDATE _ _ _ patch => set_id patch = None /\ set_created_at patch = None
  end.

(** The [SET] list that names [status] alone. *)
Definition only_status (status : string) : task_patch :=
  mkPatch None None (Some status) None None None None None None None None None.

(** A session that may update every task: the policies do not bind it, or
    its user is an employee or an admin. *)
Definition may_update_tasks (s : session) (db : Database) : Prop :=
  bypassrls s = true \/ exists_profile_with_role s db ["admin"; "employee"] = true.

(** Calls of [ChatSystem] by signed-in users, one after the other. *)
Inductive chat_call : Type :=
  | SendMessage (u : uuid) (now toISOString : timestamptz) (id : uuid)
      (currentUser selectedUser : uuid) (newMessage : string)
  | FetchMessages (u : uuid) (toISOString : timestamptz)
      (currentUser selectedUser : uuid).

Definition chat_step (db : Database) (m : gmap string chat_messages.row)
    (c : chat_call) : gmap string chat_messages.row :=
  match c with
  | SendMessage u now toISOString id currentUser selectedUser newMessage =>
      (sendMessage (as_user u) now toISOString id currentUser selectedUser
         newMessage db m).1.1
  | FetchMessages u toISOString currentUser selectedUser =>
      (fetchMessages (as_user u) toISOString currentUser selectedUser m).2
  end.

Definition chat_run (db : Database) (m : gmap string chat_messages.row)
    (cs : list chat_call) : gmap string chat_messages.row :=
  fold_left (chat_step db) cs m.

(** The order of the leaderboard: [a] comes no later than [b]. *)
Definition more_points (a b : profiles.row) : Prop :=
  profiles.points b <= profiles.points a.

(** The [compareFn] of the leaderboard: [(a, b) => b.points - a.points]. *)
Definition by_points (a b : profiles.row) : Z :=
  profiles.points b - profiles.points a.

(** What one turn of the loop of [uploadFiles], for the file [f], does to
    an entry [e] of [files]: the entry keeps its [id] and its file; it is
    settled if it has the [id] of [f] and untouched otherwise.  [turns]
    is the same for a whole batch. *)
Definition turn (f e e' : FileUpload.UploadFile) : Prop :=
  FileUpload.id e' = FileUpload.id e /\ FileUpload.file e' = FileUpload.file e
  /\ (FileUpload.id e = FileUpload.id f -> settled e')
  /\ (FileUpload.id e <> FileUpload.id f -> e' = e).

Definition turns (fs : list FileUpload.UploadFile)
    (e e' : FileUpload.UploadFile) : Prop :=
  FileUpload.id e' = FileUpload.id e /\ FileUpload.file e' = FileUpload.file e
  /\ (FileUpload.id e ∈ map FileUpload.id fs -> settled e')
  /\ (FileUpload.id e ∉ map FileUpload.id fs -> e' = e)
  /\ (settled e -> settled e').

(** * Properties *)

(** ** The error monad and 32-bit arithmetic *)

Lemma bind_Ok {A B : Type} (m : result A) (k : A -> result B) (b : B) :
  (m ≫= k) = Ok b -> exists a, m = Ok a /\ k a = Ok b.
Proof.
  destruct m as [a|e]; simpl; intros H; [eauto | discriminate].
Qed.

Lemma int4pl_Ok (a b z : Z) : int4pl a b = Ok z -> z = a + b.
Proof.
  unfold int4pl. destruct (int4_ok (a + b)); congruence.
Qed.

Lemma int4mi_Ok (a b z : Z) : int4mi a b = Ok z -> z = a - b.
Proof.
  unfold int4mi. destruct (int4_ok (a - b)); congruence.
Qed.

Lemma sql_eq_true (a b : option string) :
  sql_eq a b = true <-> exists x, a = Some x /\ b = Some x.
Proof.
  destruct a as [x|], b as [y|]; simpl; split;
    try (intros H; discriminate H);
    try (intros (z & H1 & H2); discriminate).
  - intros H. apply String.eqb_eq in H. subst. eauto.
  - intros (z & [= ->] & [= ->]). apply String.eqb_refl.
Qed.

(** ** What one ledger write does *)

Section ledger_write.
Variables (s : session) (now : timestamptz) (expr : Z -> result Z).

Lemma update_profiles_set_points_tasks who db db' :
  update_profiles_set_points s now expr who db = Ok db' ->
  db_tasks db' = db_tasks db.
Proof.
  unfold update_profiles_set_points.
  destruct who as [u|]; [|by intros [= <-]].
  destruct (db_profiles db !! u) as [p|]; [|by intros [= <-]].
  destruct (profiles_update_visible s u); [|by intros [= <-]].
  intros H. apply bind_Ok in H as (z & _ & H).
  destruct (profiles_update_check s u); [|discriminate].
  by injection H as <-.
Qed.

(** A write the row security lets through sets the balance to the value
    of the [SET] expression and touches no other profile. *)
Lemma update_profiles_set_points_visible u p db db' :
  db_profiles db !! u = Some p ->
  profiles_update_visible s u = true ->
  update_profiles_set_points s now expr (Some u) db = Ok db' ->
  exists z, expr (profiles.points p) = Ok z
    /\ db_profiles db' =
         <[u := update_profiles_updated_at now (profiles.with_points z p)]>
           (db_profiles db).
Proof.
  intros Hp Hvis. unfold update_profiles_set_points. rewrite Hp, Hvis.
  intros H. apply bind_Ok in H as (z & Hz & H). exists z. split; [done|].
  unfold profiles_update_check in H. unfold profiles_update_visible in Hvis.
  rewrite Hvis in H. by injection H as <-.
Qed.

(** A write the row security hides changes nothing and raises nothing. *)
Lemma update_profiles_set_points_hidden u db :
  profiles_update_visible s u = false ->
  update_profiles_set_points s now expr (Some u) db = Ok db.
Proof.
  intros Hvis. unfold update_profiles_set_points. rewrite Hvis.
  by destruct (db_profiles db !! u).
Qed.

Lemma update_profiles_set_points_no_assignee db :
  update_profiles_set_points s now expr None db = Ok db.
Proof. reflexivity. Qed.
End ledger_write.

(** ** The trigger function, case by case *)

Lemma bind_Ok_r {A : Type} (m : result A) : (m ≫= Ok) = m.
Proof. by destruct m. Qed.

Section trigger.
Variables (s : session) (now : timestamptz) (OLD NEW : tasks.row).

Lemma calculate_user_points_credit db :
  tasks.status NEW = "completed" ->
  tasks.status OLD <> "completed" ->
  0 < tasks.points NEW ->
  calculate_user_points s now OLD NEW db =
    update_profiles_set_points s now (credit (tasks.points NEW))
      (tasks.assignee_id NEW) db.
Proof.
  intros Hnew Hold Hpos. unfold calculate_user_points.
  rewrite Hnew. apply String.eqb_neq in Hold. rewrite Hold. simpl.
  apply Z.ltb_lt in Hpos. rewrite Hpos. apply bind_Ok_r.
Qed.

(** A task worth nothing, or less, credits nothing: the guard
    [IF points_to_add > 0] skips the write. *)
Lemma calculate_user_points_credit_skipped db :
  tasks.status NEW = "completed" ->
  tasks.points NEW <= 0 ->
  calculate_user_points s now OLD NEW db = Ok db.
Proof.
  intros Hnew Hle. unfold calculate_user_points. rewrite Hnew. simpl.
  assert ((0 <? tasks.points NEW) = false) as Hp by (apply Z.ltb_ge; lia).
  destruct (negb _); simpl; by rewrite ?Hp.
Qed.

Lemma calculate_user_points_debit db :
  tasks.status NEW = "overdue" ->
  tasks.status OLD <> "overdue" ->
  calculate_user_points s now OLD NEW db =
    update_profiles_set_points s now (debit 5) (tasks.assignee_id NEW) db.
Proof.
  intros Hnew Hold. unfold calculate_user_points.
  rewrite Hnew. apply String.eqb_neq in Hold. rewrite Hold. reflexivity.
Qed.

(** Edge trigger: with the status unchanged neither [IF] fires. *)
Lemma calculate_user_points_same_status db :
  tasks.status NEW = tasks.status OLD ->
  calculate_user_points s now OLD NEW db = Ok db.
Proof.
  intros Heq. unfold calculate_user_points. rewrite Heq.
  destruct (String.eqb (tasks.status OLD) "completed");
    destruct (String.eqb (tasks.status OLD) "overdue"); reflexivity.
Qed.

(** Every other change of status leaves the ledger alone as well. *)
Lemma calculate_user_points_other db :
  tasks.status NEW <> "completed" ->
  tasks.status NEW <> "overdue" ->
  calculate_user_points s now OLD NEW db = Ok db.
Proof.
  intros H1 H2. unfold calculate_user_points.
  apply String.eqb_neq in H1, H2. by rewrite H1, H2.
Qed.

Lemma calculate_user_points_tasks db db' :
  calculate_user_points s now OLD NEW db = Ok db' ->
  db_tasks db' = db_tasks db.
Proof.
  unfold calculate_user_points. intros H.
  apply bind_Ok in H as (db1 & H1 & H2).
  transitivity (db_tasks db1).
  - destruct (0 <? _) in H2.
    + by apply update_profiles_set_points_tasks in H2.
    + by injection H2 as <-.
  - destruct (0 <? _) in H1.
    + by apply update_profiles_set_points_tasks in H1.
    + by injection H1 as <-.
Qed.
End trigger.

(** ** The [UPDATE] on [tasks], case by case *)

(** ** The table an [UPDATE] writes *)

Lemma written_tasks_same_id (id : uuid) (NEW : tasks.row) (m : gmap string tasks.row) :
  written_tasks id id NEW m = <[id := NEW]> m.
Proof. unfold written_tasks. apply insert_delete_eq. Qed.

Lemma tasks_id_taken_same (id : uuid) (db : Database) :
  tasks_id_taken id id db = false.
Proof. unfold tasks_id_taken. by rewrite String.eqb_refl. Qed.

Lemma tasks_referenced_same (id : uuid) (db : Database) :
  tasks_referenced_on_update id id db = true.
Proof. unfold tasks_referenced_on_update. by rewrite String.eqb_refl. Qed.

Lemma patched_id_None (id : uuid) (p : task_patch) :
  set_id p = None -> patched_id id p = id.
Proof. unfold patched_id. by intros ->. Qed.

Section update_tasks.
Variables (s : session) (now : timestamptz) (id : uuid) (patch : task_patch).

Lemma update_tasks_no_row db :
  db_tasks db !! id = None -> update_tasks s now id patch db = Ok db.
Proof. intros H. unfold update_tasks. by rewrite H. Qed.

Lemma update_tasks_hidden db OLD :
  db_tasks db !! id = Some OLD ->
  tasks_update_visible s db OLD = false ->
  update_tasks s now id patch db = Ok db.
Proof. intros H Hvis. unfold update_tasks. by rewrite H, Hvis. Qed.

(** A successful [UPDATE] of a visible row has written the patched row
    and then run the trigger on the result. *)
Lemma update_tasks_written db db' OLD :
  db_tasks db !! id = Some OLD ->
  tasks_update_visible s db OLD = true ->
  update_tasks s now id patch db = Ok db' ->
  let NEW := update_tasks_updated_at now (apply_patch patch OLD) in
  let m := written_tasks id (patched_id id patch) NEW (db_tasks db) in
  calculate_user_points s now OLD NEW (set_tasks m db) = Ok db'
  /\ db_tasks db' = m
  /\ tasks_id_taken id (patched_id id patch) db = false.
Proof.
  intros H Hvis. unfold update_tasks. rewrite H, Hvis. cbv zeta.
  destruct (negb (tasks_update_check _ _ _)); [discriminate|].
  destruct (negb (tasks.check_constraints _)); [discriminate|].
  destruct (tasks_id_taken _ _ _); [discriminate|].
  destruct (negb (tasks_fk_on_update _ _ _ && _)); [discriminate|].
  intros Hc. split; [done|]. split; [|done].
  by apply calculate_user_points_tasks in Hc.
Qed.

(** The policy "Employees and admins can update tasks" hides every
    task from a session that is neither. *)
Lemma tasks_update_visible_staff_only db t :
  bypassrls s = false ->
  exists_profile_with_role s db ["admin"; "employee"] = false ->
  tasks_update_visible s db t = false.
Proof.
  intros Hb Hr. unfold tasks_update_visible, policy.tasks_update.
  rewrite Hb, Hr. simpl. apply andb_false_r.
Qed.

Lemma update_tasks_not_staff db :
  bypassrls s = false ->
  exists_profile_with_role s db ["admin"; "employee"] = false ->
  update_tasks s now id patch db = Ok db.
Proof.
  intros Hb Hr. destruct (db_tasks db !! id) as [OLD|] eqn:H.
  - eapply update_tasks_hidden; [done|].
    by apply tasks_update_visible_staff_only.
  - by apply update_tasks_no_row.
Qed.
End update_tasks.

Lemma status_apply_patch patch OLD now :
  tasks.status (update_tasks_updated_at now (apply_patch patch OLD)) =
  default (tasks.status OLD) (set_status patch).
Proof. reflexivity. Qed.

(** ** The ledger when its write is let through, and when it is not *)

Section ledger.
Variables (s : session) (now : timestamptz) (id : uuid) (patch : task_patch).
Variables (db db' : Database) (OLD : tasks.row).
Hypothesis Hrow : db_tasks db !! id = Some OLD.
Hypothesis Hvisible : tasks_update_visible s db OLD = true.
Hypothesis Hok : update_tasks s now id patch db = Ok db'.

(** Completing a task credits its points to the assignee, once, when
    the session may write the assignee's profile (it is the assignee's
    own session, or one the policies do not bind). *)
Lemma ledger_credit u B :
  tasks.status OLD <> "completed" ->
  tasks.status (written_row now patch OLD) = "completed" ->
  tasks.assignee_id (written_row now patch OLD) = Some u ->
  0 < tasks.points (written_row now patch OLD) ->
  balance db u = Some B ->
  profiles_update_visible s u = true ->
  balance db' u = Some (B + tasks.points (written_row now patch OLD)).
Proof.
  intros Hold Hnew Hu Hpos HB Hvis.
  destruct (update_tasks_written _ _ _ _ _ _ _ Hrow Hvisible Hok) as [Hc _].
  fold (written_row now patch OLD) in Hc. rewrite calculate_user_points_credit in Hc by done.
  rewrite Hu in Hc. unfold balance in HB.
  destruct (db_profiles db !! u) as [p|] eqn:Hp; [|discriminate].
  injection HB as HB.
  eapply update_profiles_set_points_visible in Hc as (z & Hz & Hc); [|done..].
  apply int4pl_Ok in Hz. unfold balance. rewrite Hc, lookup_insert_eq.
  simpl. by rewrite Hz, HB.
Qed.

(** A task that becomes overdue costs the assignee five points, or
    the whole balance when that is less, under the same condition. *)
Lemma ledger_debit u B :
  tasks.status OLD <> "overdue" ->
  tasks.status (written_row now patch OLD) = "overdue" ->
  tasks.assignee_id (written_row now patch OLD) = Some u ->
  balance db u = Some B ->
  profiles_update_visible s u = true ->
  balance db' u = Some (GREATEST 0 (B - 5)).
Proof.
  intros Hold Hnew Hu HB Hvis.
  destruct (update_tasks_written _ _ _ _ _ _ _ Hrow Hvisible Hok) as [Hc _].
  fold (written_row now patch OLD) in Hc. rewrite calculate_user_points_debit in Hc by done.
  rewrite Hu in Hc. unfold balance in HB.
  destruct (db_profiles db !! u) as [p|] eqn:Hp; [|discriminate].
  injection HB as HB.
  eapply update_profiles_set_points_visible in Hc as (z & Hz & Hc); [|done..].
  unfold debit in Hz. apply bind_Ok in Hz as (y & Hy & Hz).
  apply int4mi_Ok in Hy. injection Hz as <-.
  unfold balance. rewrite Hc, lookup_insert_eq. simpl. by rewrite Hy, HB.
Qed.

(** Under row security the trigger's write reaches only the profile of
    the session's own user: for every other assignee the status
    changes and the ledger does nothing. *)
Lemma ledger_hidden u :
  tasks.assignee_id (written_row now patch OLD) = Some u ->
  profiles_update_visible s u = false ->
  db_profiles db' = db_profiles db.
Proof.
  intros Hu Hvis.
  destruct (update_tasks_written _ _ _ _ _ _ _ Hrow Hvisible Hok) as [Hc _].
  fold (written_row now patch OLD) in Hc. unfold calculate_user_points in Hc. rewrite Hu in Hc.
  apply bind_Ok in Hc as (db1 & H1 & H2).
  assert (db1 = set_tasks (written_tasks id (patched_id id patch)
                             (written_row now patch OLD) (db_tasks db)) db) as ->.
  { destruct (0 <? _) in H1;
      [rewrite update_profiles_set_points_hidden in H1 by done|];
      by injection H1 as <-. }
  destruct (0 <? _) in H2;
    [rewrite update_profiles_set_points_hidden in H2 by done|];
    by injection H2 as <-.
Qed.
End ledger.

(** The debit written as the specification has it: the balance drops by
    five, or by all of it when it is less, and is never negative. *)
Lemma GREATEST_floor (B : Z) :
  B - GREATEST 0 (B - 5) = Z.min 5 B /\ 0 <= GREATEST 0 (B - 5).
Proof. unfold GREATEST. lia. Qed.

(** Which profiles a session may write: its own, or all of them when the
    policies do not bind it. *)
Lemma own_profile_visible (u : uuid) : profiles_update_visible (as_user u) u = true.
Proof.
  unfold profiles_update_visible, policy.profiles_update. simpl.
  apply String.eqb_refl.
Qed.

Lemma other_profile_hidden (u v : uuid) :
  u <> v -> profiles_update_visible (as_user v) u = false.
Proof.
  intros Hne. unfold profiles_update_visible, policy.profiles_update. simpl.
  apply String.eqb_neq. congruence.
Qed.

Lemma bypassrls_profile_visible (s : session) (u : uuid) :
  bypassrls s = true -> profiles_update_visible s u = true.
Proof. intros H. unfold profiles_update_visible. by rewrite H. Qed.

(** ** Who may write a task *)

Lemma intern_is_not_staff u db p :
  db_profiles db !! u = Some p ->
  profiles.role p = "intern" ->
  exists_profile_with_role (as_user u) db ["admin"; "employee"] = false.
Proof.
  intros Hp Hr. unfold exists_profile_with_role. simpl. by rewrite Hp, Hr.
Qed.

(** For an intern every [UPDATE] on [tasks] matches no row, whatever the
    task and whoever it is assigned to; PostgreSQL reports no error. *)
Lemma intern_update_matches_no_row u db p now id patch :
  db_profiles db !! u = Some p ->
  profiles.role p = "intern" ->
  update_tasks (as_user u) now id patch db = Ok db.
Proof.
  intros Hp Hr. apply update_tasks_not_staff; [done|].
  by eapply intern_is_not_staff.
Qed.

(** C2, at a concrete input.  Ada is an intern and task [t1] is assigned to
    her with status [pending].  Her [updateTaskStatus(t1, 'in_progress')]
    leaves the database as it was, the status still [pending], while the
    client shows the toast "Success": the [UPDATE] policy of [tasks] admits
    employees and admins only and has no clause for the assignee. *)
Theorem intern_start_own_task_writes_nothing :
  updateTaskStatus (as_user sample.ada) sample.now sample.clock sample.t1 "in_progress"
    (sample.db 0 "pending" 10)
  = (sample.db 0 "pending" 10,
     mkToast "Success" "Task marked as in_progress" None)
  /\ tasks.status <$> db_tasks (sample.db 0 "pending" 10) !! sample.t1 = Some "pending"
  /\ tasks.assignee_id <$> db_tasks (sample.db 0 "pending" 10) !! sample.t1
     = Some (Some sample.ada).
Proof. repeat split; vm_compute; reflexivity. Qed.

(** ** The ledger at concrete inputs *)

(** Run by a session the policies do not bind, the trigger credits the
    task's points and debits the penalty. *)
Example owner_completion_credits :
  exists db',
    update_tasks sample.owner sample.now sample.t1 (sample.set_status "completed")
      (sample.db 0 "in_progress" 10) = Ok db'
    /\ balance db' sample.ada = Some 10.
Proof. eexists. split; vm_compute; reflexivity. Qed.

(** So it does for a signed-in user who completes a task assigned to
    herself: the one profile row her session may write is her own. *)
Example own_completion_credits :
  exists db',
    update_tasks (as_user sample.eve) sample.now sample.t1
      (sample.set_status "completed") (sample.db_own 0 "in_progress" 10) = Ok db'
    /\ balance db' sample.eve = Some 10.
Proof. eexists. split; vm_compute; reflexivity. Qed.

Example owner_overdue_debits :
  exists db',
    update_tasks sample.owner sample.now sample.t1 (sample.set_status "overdue")
      (sample.db 3 "pending" 20) = Ok db'
    /\ balance db' sample.ada = Some 0.
Proof. eexists. split; vm_compute; reflexivity. Qed.

(** C1, at a concrete input.  Eve, an employee, completes task [t1],
    worth 10 points and assigned to the intern Ada, whose balance is 0.  The
    stored status changes from [in_progress] to [completed] and Ada's
    balance is still 0, not 10: the trigger function runs with Eve's rights
    and the policy "Users can update their own profile" hides Ada's row from
    its [UPDATE]. *)
Theorem employee_completion_credits_nothing :
  exists db',
    update_tasks (as_user sample.eve) sample.now sample.t1 (sample.set_status "completed")
      (sample.db 0 "in_progress" 10) = Ok db'
    /\ tasks.status <$> db_tasks db' !! sample.t1 = Some "completed"
    /\ tasks.assignee_id <$> db_tasks db' !! sample.t1 = Some (Some sample.ada)
    /\ balance (sample.db 0 "in_progress" 10) sample.ada = Some 0
    /\ balance db' sample.ada = Some 0.
Proof. eexists. repeat split; vm_compute; reflexivity. Qed.

(** C4, at a concrete input.  Eve, an employee, marks task [t1], assigned
    to the intern Ada, as overdue; Ada's balance is 7.  The stored status
    changes from [pending] to [overdue] and Ada's balance is still 7, not
    [7 - min 5 7 = 2]: as for a completion, the trigger's [UPDATE] on
    [profiles] runs with Eve's rights and skips Ada's row. *)
Theorem employee_overdue_debits_nothing :
  exists db',
    update_tasks (as_user sample.eve) sample.now sample.t1 (sample.set_status "overdue")
      (sample.db 7 "pending" 10) = Ok db'
    /\ tasks.status <$> db_tasks db' !! sample.t1 = Some "overdue"
    /\ tasks.assignee_id <$> db_tasks db' !! sample.t1 = Some (Some sample.ada)
    /\ balance (sample.db 7 "pending" 10) sample.ada = Some 7
    /\ balance db' sample.ada = Some 7.
Proof. eexists. repeat split; vm_compute; reflexivity. Qed.

(** ** Statements that leave [profiles] alone *)

Lemma insert_tasks_profiles s now id v db db' :
  insert_tasks s now id v db = Ok db' -> db_profiles db' = db_profiles db.
Proof.
  unfold insert_tasks.
  destruct (negb (tasks_insert_check s db)); [discriminate|].
  destruct (negb (tasks.check_constraints _)); [discriminate|].
  destruct (db_tasks db !! id); [discriminate|].
  destruct (negb (tasks_fk_on_insert _ _)); [discriminate|].
  by intros [= <-].
Qed.

Lemma update_tasks_same_status_profiles s now id patch db db' OLD :
  db_tasks db !! id = Some OLD ->
  default (tasks.status OLD) (set_status patch) = tasks.status OLD ->
  update_tasks s now id patch db = Ok db' ->
  db_profiles db' = db_profiles db.
Proof.
  intros Hrow Hst Hok.
  destruct (tasks_update_visible s db OLD) eqn:Hvis.
  - destruct (update_tasks_written _ _ _ _ _ _ _ Hrow Hvis Hok) as [Hc _].
    rewrite calculate_user_points_same_status in Hc
      by (by rewrite status_apply_patch).
    by injection Hc as <-.
  - rewrite (update_tasks_hidden _ _ _ _ _ _ Hrow Hvis) in Hok.
    by injection Hok as <-.
Qed.

(** ** The balance never drops below zero *)

Section nonnegative.
Variables (s : session) (now : timestamptz).

Lemma update_profiles_set_points_nonnegative expr who db db' :
  (forall z z', 0 <= z -> expr z = Ok z' -> 0 <= z') ->
  points_nonnegative db ->
  update_profiles_set_points s now expr who db = Ok db' ->
  points_nonnegative db'.
Proof.
  intros Hexpr Hdb. unfold update_profiles_set_points.
  destruct who as [u|]; [|by intros [= <-]].
  destruct (db_profiles db !! u) as [p|] eqn:Hp; [|by intros [= <-]].
  destruct (profiles_update_visible s u); [|by intros [= <-]].
  intros H. apply bind_Ok in H as (z & Hz & H).
  destruct (profiles_update_check s u); [|discriminate].
  injection H as <-. unfold points_nonnegative. simpl.
  apply map_Forall_insert_2; [|done].
  simpl. eapply Hexpr; [|done]. by apply (Hdb u p).
Qed.

Lemma credit_nonnegative a z z' : 0 < a -> 0 <= z -> credit a z = Ok z' -> 0 <= z'.
Proof. intros Ha Hz H. apply int4pl_Ok in H. lia. Qed.

Lemma debit_nonnegative a z z' : debit a z = Ok z' -> 0 <= z'.
Proof.
  intros H. apply bind_Ok in H as (y & _ & H). injection H as <-.
  unfold GREATEST. lia.
Qed.

Lemma calculate_user_points_nonnegative OLD NEW db db' :
  points_nonnegative db ->
  calculate_user_points s now OLD NEW db = Ok db' ->
  points_nonnegative db'.
Proof.
  intros Hdb. unfold calculate_user_points. cbv zeta. intros H.
  apply bind_Ok in H as (db1 & H1 & H2).
  assert (points_nonnegative db1) as Hdb1.
  { destruct (0 <? _) eqn:Hpos in H1; [|by injection H1 as <-].
    apply Z.ltb_lt in Hpos.
    eapply update_profiles_set_points_nonnegative in H1; [done| |done].
    intros z z' Hz. by apply credit_nonnegative. }
  destruct (0 <? _) in H2; [|by injection H2 as <-].
  eapply update_profiles_set_points_nonnegative in H2; [done| |done].
  intros z z' _. apply debit_nonnegative.
Qed.

Lemma update_tasks_nonnegative id patch db db' :
  points_nonnegative db ->
  update_tasks s now id patch db = Ok db' ->
  points_nonnegative db'.
Proof.
  intros Hdb Hok.
  destruct (db_tasks db !! id) as [OLD|] eqn:Hrow.
  - destruct (tasks_update_visible s db OLD) eqn:Hvis.
    + destruct (update_tasks_written _ _ _ _ _ _ _ Hrow Hvis Hok) as [Hc _].
      by eapply calculate_user_points_nonnegative in Hc.
    + rewrite (update_tasks_hidden _ _ _ _ _ _ Hrow Hvis) in Hok.
      by injection Hok as <-.
  - rewrite update_tasks_no_row in Hok by done. by injection Hok as <-.
Qed.
End nonnegative.

Lemma execute_nonnegative db q :
  points_nonnegative db -> points_nonnegative (execute db q).
Proof.
  intros Hdb. destruct q as [s now id v|s now id patch]; simpl.
  - destruct (insert_tasks s now id v db) as [db'|] eqn:H; [|done].
    unfold points_nonnegative. by rewrite (insert_tasks_profiles _ _ _ _ _ _ H).
  - destruct (update_tasks s now id patch db) as [db'|] eqn:H; [|done].
    by eapply update_tasks_nonnegative.
Qed.

Lemma execute_all_nonnegative qs db :
  points_nonnegative db -> points_nonnegative (execute_all db qs).
Proof.
  revert db. induction qs as [|q qs IH]; intros db Hdb; simpl; [done|].
  apply IH. by apply execute_nonnegative.
Qed.

(** C3.  From a database in which no balance is negative, after every
    prefix of every history of [INSERT]s and [UPDATE]s on [tasks], run by
    any sessions, no balance is negative. *)
Theorem points_never_negative (db : Database) (qs : list statement) (n : nat) :
  points_nonnegative db ->
  points_nonnegative (execute_all db (take n qs)).
Proof. apply execute_all_nonnegative. Qed.

Lemma points_never_negative_witness :
  points_nonnegative
    (execute_all (sample.db 3 "pending" 20)
       (take 2 [UPDATE sample.owner sample.now sample.t1 (sample.set_status "overdue");
                UPDATE sample.owner sample.now sample.t1 (sample.set_status "completed");
                UPDATE sample.owner sample.now sample.t1 (sample.set_status "overdue")])).
Proof.
  apply (points_never_negative (sample.db 3 "pending" 20)).
  apply (bool_decide_unpack _). vm_compute. reflexivity.
Defined.

(** ** Re-saving the same status *)

(** C5.  An [UPDATE] of a task that sets [status] to the value the stored
    row already has changes the balance of no profile, whichever session
    runs it and whatever else it sets. *)
Theorem same_status_changes_no_balance
    (s : session) (now : timestamptz) (id : uuid) (patch : task_patch)
    (db : Database) (OLD : tasks.row) (status : string) :
  db_tasks db !! id = Some OLD ->
  tasks.status OLD = status ->
  set_status patch = Some status ->
  forall u, balance (execute db (UPDATE s now id patch)) u = balance db u.
Proof.
  intros Hrow Hst Hset u. simpl.
  destruct (update_tasks s now id patch db) as [db'|] eqn:Hok; [|done].
  unfold balance.
  rewrite (update_tasks_same_status_profiles s now id patch db db' OLD Hrow);
    [done| |done].
  by rewrite Hset.
Qed.

Lemma same_status_changes_no_balance_witness :
  balance (execute (sample.db 10 "completed" 10)
             (UPDATE sample.owner sample.now sample.t1 (sample.set_status "completed")))
    sample.ada
  = balance (sample.db 10 "completed" 10) sample.ada.
Proof.
  apply (same_status_changes_no_balance sample.owner sample.now sample.t1
           (sample.set_status "completed") (sample.db 10 "completed" 10)
           (sample.task "completed" 10 (Some sample.ada) None) "completed");
    vm_compute; reflexivity.
Defined.

(** ** [completed_at] follows the status *)

Lemma updateTaskStatus_row_consistent now toISOString status OLD :
  let patch :=
    mkPatch None None (Some status) None None None None None
      (Some (if String.eqb status "completed" then Some toISOString else None))
      None None None in
  let NEW := update_tasks_updated_at now (apply_patch patch OLD) in
  tasks.status NEW = status /\ completed_at_consistent NEW.
Proof.
  simpl. split; [done|]. unfold completed_at_consistent. simpl.
  destruct (String.eqb status "completed") eqn:E.
  - apply String.eqb_eq in E. by split.
  - apply String.eqb_neq in E. by split.
Qed.

(** What [updateTaskStatus] does to the table: nothing (the [UPDATE]
    matched no row the session may update, or was rolled back), or it
    replaced the row under [id], which it may update, by one with the
    requested status and a [completed_at] that follows it. *)
Lemma updateTaskStatus_table
    (s : session) (now toISOString : timestamptz) (id : uuid)
    (status : string) (db : Database) :
  let out := updateTaskStatus s now toISOString id status db in
  db_tasks out.1 = db_tasks db
  \/ exists OLD NEW,
       db_tasks db !! id = Some OLD
       /\ tasks_update_visible s db OLD = true
       /\ db_tasks out.1 = <[id := NEW]> (db_tasks db)
       /\ tasks.status NEW = status
       /\ completed_at_consistent NEW.
Proof.
  cbv zeta. unfold updateTaskStatus.
  destruct (update_tasks _ _ _ _ _) as [db'|e] eqn:Hok; simpl; [|by left].
  destruct (db_tasks db !! id) as [OLD|] eqn:Hrow.
  - destruct (tasks_update_visible s db OLD) eqn:Hvis.
    + right. exists OLD.
      destruct (update_tasks_written _ _ _ _ _ _ _ Hrow Hvis Hok) as (_ & Ht & _).
      change (patched_id id _) with id in Ht. rewrite written_tasks_same_id in Ht.
      eexists. split; [done|]. split; [done|]. split; [exact Ht|].
      apply updateTaskStatus_row_consistent.
    + left. rewrite (update_tasks_hidden _ _ _ _ _ _ Hrow Hvis) in Hok.
      by injection Hok as <-.
  - left. rewrite update_tasks_no_row in Hok by done. by injection Hok as <-.
Qed.

(** An [UPDATE] that names [status] alone, which the policy "Employees
    and admins can update tasks" lets an employee send: from a table
    where [completed_at] follows the status, the task ends [completed]
    with [completed_at] NULL.  No constraint and no trigger of the table
    ties the two columns. *)
Lemma status_update_leaves_completed_at_null :
  tasks_consistent (sample.db 0 "in_progress" 10)
  /\ exists db' t,
       update_tasks (as_user sample.eve) sample.now sample.t1
         (sample.set_status "completed") (sample.db 0 "in_progress" 10) = Ok db'
       /\ db_tasks db' !! sample.t1 = Some t
       /\ tasks.status t = "completed"
       /\ tasks.completed_at t = None
       /\ ~ completed_at_consistent t.
Proof.
  split.
  - apply map_Forall_insert_2; [|apply map_Forall_empty].
    unfold completed_at_consistent. simpl. split; [done|discriminate].
  - eexists. eexists. split; [vm_compute; reflexivity|].
    split; [vm_compute; reflexivity|].
    split; [reflexivity|]. split; [reflexivity|].
    unfold completed_at_consistent. simpl. intros [_ H]. by apply H.
Qed.

(** C6, as amended.  After [updateTaskStatus(id, status)], in any session,
    every task is as it was stored before the call, or is the task [id]
    with the requested status and a [completed_at] that is non-null
    exactly when that status is [completed]; so if [completed_at] followed
    the status for every task before the call, it does after it.  And
    when the session may update the task and the call reports success,
    the task has been written so. *)
Theorem updateTaskStatus_completed_at
    (s : session) (now toISOString : timestamptz) (id : uuid)
    (status : string) (db : Database) :
  let out := updateTaskStatus s now toISOString id status db in
  (forall i t',
      db_tasks out.1 !! i = Some t' ->
      db_tasks db !! i = Some t'
      \/ (i = id /\ tasks.status t' = status /\ completed_at_consistent t'))
  /\ (tasks_consistent db -> tasks_consistent out.1)
  /\ (forall OLD,
        db_tasks db !! id = Some OLD ->
        tasks_update_visible s db OLD = true ->
        toast_title out.2 = "Success" ->
        exists NEW,
          db_tasks out.1 !! id = Some NEW
          /\ tasks.status NEW = status
          /\ completed_at_consistent NEW).
Proof.
  cbv zeta.
  pose proof (updateTaskStatus_table s now toISOString id status db) as Htab.
  cbv zeta in Htab. split; [|split].
  - intros i t' Hi.
    destruct Htab as [Ht|(OLD & NEW & _ & _ & Ht & Hs & Hc)];
      rewrite Ht in Hi; [by left|]. destruct (decide (i = id)) as [->|Hne].
    + rewrite lookup_insert_eq in Hi. injection Hi as <-. by right.
    + rewrite lookup_insert_ne in Hi by done. by left.
  - intros Hdb. unfold tasks_consistent.
    destruct Htab as [->|(OLD & NEW & _ & _ & -> & _ & Hc)]; [done|].
    by apply map_Forall_insert_2.
  - intros OLD Hrow Hvis Hsucc. unfold updateTaskStatus in *.
    destruct (update_tasks _ _ _ _ _) as [db'|e] eqn:Hok; simpl in *;
      [|discriminate].
    destruct (update_tasks_written _ _ _ _ _ _ _ Hrow Hvis Hok) as (_ & Ht & _).
    change (patched_id id _) with id in Ht. rewrite written_tasks_same_id in Ht.
    eexists. rewrite Ht, lookup_insert_eq. split; [done|].
    apply updateTaskStatus_row_consistent.
Qed.

Lemma updateTaskStatus_completed_at_witness :
  tasks_consistent
    (updateTaskStatus (as_user sample.eve) sample.now sample.clock sample.t1
       "completed" (sample.db 0 "in_progress" 10)).1
  /\ exists NEW,
       db_tasks (updateTaskStatus (as_user sample.eve) sample.now sample.clock
                   sample.t1 "completed" (sample.db 0 "in_progress" 10)).1
         !! sample.t1 = Some NEW
       /\ tasks.status NEW = "completed"
       /\ completed_at_consistent NEW.
Proof.
  destruct (updateTaskStatus_completed_at (as_user sample.eve) sample.now
              sample.clock sample.t1 "completed" (sample.db 0 "in_progress" 10))
    as (_ & Hkeep & Hwritten).
  split.
  - apply Hkeep. apply map_Forall_insert_2; [|apply map_Forall_empty].
    unfold completed_at_consistent. simpl. split; [done|discriminate].
  - apply (Hwritten (sample.task "in_progress" 10 (Some sample.ada) None));
      vm_compute; reflexivity.
Defined.

(** ** Creating tasks *)

Lemma tasks_insert_check_user u db :
  tasks_insert_check (as_user u) db = true ->
  exists p, db_profiles db !! u = Some p
    /\ (profiles.role p = "employee" \/ profiles.role p = "admin").
Proof.
  unfold tasks_insert_check, policy.tasks_insert, exists_profile_with_role.
  simpl. destruct (db_profiles db !! u) as [p|]; [|discriminate].
  intros H. exists p. split; [done|].
  rewrite !orb_true_iff in H. destruct H as [H|[H|H]]; [| |discriminate].
  - right. by apply String.eqb_eq.
  - left. by apply String.eqb_eq.
Qed.

(** C7.  An [INSERT] on [tasks] by a user whose profile has the role
    [intern] raises 42501 [insufficient_privilege] (the answer the REST
    layer sends as 403 Forbidden) and [createTask] run by such a user
    leaves the database as it was; an [INSERT] by a user goes through
    only when the user's profile has the role [employee] or [admin]. *)
Theorem intern_cannot_create_task
    (u : uuid) (now : timestamptz) (id : uuid) (db : Database) :
  (forall p v,
      db_profiles db !! u = Some p ->
      profiles.role p = "intern" ->
      insert_tasks (as_user u) now id v db = Err insufficient_privilege)
  /\ (forall p profile_user_id st,
      db_profiles db !! u = Some p ->
      profiles.role p = "intern" ->
      (createTask (as_user u) now id profile_user_id st db).1.1 = db
      /\ toast_title (createTask (as_user u) now id profile_user_id st db).2
         = "Error")
  /\ (forall v db',
      insert_tasks (as_user u) now id v db = Ok db' ->
      exists p, db_profiles db !! u = Some p
        /\ (profiles.role p = "employee" \/ profiles.role p = "admin")).
Proof.
  assert (forall p v, db_profiles db !! u = Some p ->
            profiles.role p = "intern" ->
            insert_tasks (as_user u) now id v db = Err insufficient_privilege)
    as Hintern.
  { intros p v Hp Hr. unfold insert_tasks, tasks_insert_check, policy.tasks_insert.
    by rewrite (intern_is_not_staff _ _ _ Hp Hr). }
  split; [done|]. split.
  - intros p profile_user_id st Hp Hr. unfold createTask.
    destruct (String.eqb _ ""); [done|].
    by rewrite (Hintern p _ Hp Hr).
  - intros v db' H. apply tasks_insert_check_user.
    unfold insert_tasks in H.
    by destruct (tasks_insert_check (as_user u) db).
Qed.

Lemma intern_cannot_create_task_witness :
  insert_tasks (as_user sample.ada) sample.now sample.t2
    (mkValues "Review" None None None None None (Some sample.ada) None None)
    (sample.db 0 "pending" 10) = Err insufficient_privilege
  /\ exists p, db_profiles (sample.db 0 "pending" 10) !! sample.eve = Some p
       /\ (profiles.role p = "employee" \/ profiles.role p = "admin").
Proof.
  split.
  - apply (proj1 (intern_cannot_create_task sample.ada sample.now sample.t2
                    (sample.db 0 "pending" 10))
             (sample.profile "profile-ada" "intern" 0)); reflexivity.
  - apply (proj2 (proj2 (intern_cannot_create_task sample.eve sample.now sample.t2
                           (sample.db 0 "pending" 10)))
             (mkValues "Review" None None None None None (Some sample.ada)
                (Some sample.eve) None)
             (set_tasks
                (<[sample.t2 := new_task_row sample.now
                     (mkValues "Review" None None None None None
                        (Some sample.ada) (Some sample.eve) None)]>
                   (db_tasks (sample.db 0 "pending" 10)))
                (sample.db 0 "pending" 10))).
    vm_compute. reflexivity.
Defined.

(** C10.  An [INSERT] on [tasks], by any session and with any values (a
    status [completed] and an assignee included), leaves the balance of
    every profile as it was: [update_user_points] is an [AFTER UPDATE]
    trigger and no trigger runs the ledger on [INSERT]. *)
Theorem insert_changes_no_balance
    (s : session) (now : timestamptz) (id : uuid) (v : task_values)
    (db : Database) (u : uuid) :
  balance (execute db (INSERT s now id v)) u = balance db u.
Proof.
  simpl. destruct (insert_tasks s now id v db) as [db'|] eqn:H; [|done].
  unfold balance. by rewrite (insert_tasks_profiles _ _ _ _ _ _ H).
Qed.

(** Such an [INSERT] does go through: Eve creates a task that is already
    completed, worth 10 points and assigned to Ada, whose balance stays 0. *)
Example insert_completed_task :
  exists db',
    insert_tasks (as_user sample.eve) sample.now sample.t2
      (mkValues "Review" None (Some "completed") None (Some 10) None
         (Some sample.ada) (Some sample.eve) (Some sample.now))
      (sample.db 0 "pending" 10) = Ok db'
    /\ tasks.status <$> db_tasks db' !! sample.t2 = Some "completed"
    /\ balance db' sample.ada = Some 0.
Proof. eexists. repeat split; vm_compute; reflexivity. Qed.

(** ** Upload validation *)

Module FileUpload_facts.
Import FileUpload.

(** What the allow-list accepts: the wildcard entries are compared with
    the start of the MIME type; the entries without a wildcard, among
    them [application/pdf], with the end of the file name. *)
Lemma isAllowed_unfold (f : File.t) :
  isAllowed f =
    js.startsWith (File.type f) "image/"
    || js.endsWith (File.name f) "application/pdf"
    || js.startsWith (File.type f) "text/"
    || js.endsWith (File.name f) ".doc"
    || js.endsWith (File.name f) ".docx".
Proof.
  unfold isAllowed, allowedTypes. cbn [existsb].
  change (js.includes "image/*" "*") with true.
  change (js.includes "application/pdf" "*") with false.
  change (js.includes "text/*" "*") with true.
  change (js.includes ".doc" "*") with false.
  change (js.includes ".docx" "*") with false.
  change (js.replace "image/*" "*" "") with "image/".
  change (js.replace "text/*" "*" "") with "text/".
  cbv iota. by rewrite orb_false_r, !orb_assoc.
Qed.

Lemma validate_None (f : File.t) :
  validate f = None <-> File.size f <= ceiling /\ isAllowed f = true.
Proof.
  unfold validate, ceiling.
  destruct (5 * 1024 * 1024 <? File.size f) eqn:Hs.
  - apply Z.ltb_lt in Hs. split; [discriminate|]. intros [? _]. lia.
  - apply Z.ltb_ge in Hs. destruct (isAllowed f); simpl.
    + by split.
    + split; [discriminate|]. by intros [_ ?].
Qed.

(** A file whose name happens to end in [application/pdf] passes. *)
Example name_ending_in_mime_type_accepted :
  validate (File.mk "notes.application/pdf" "" 1024) = None.
Proof. reflexivity. Qed.

Example png_accepted : validate (File.mk "photo.png" "image/png" 1024) = None.
Proof. reflexivity. Qed.

Example docx_accepted :
  validate (File.mk "cv.docx"
    "application/vnd.openxmlformats-officedocument.wordprocessingml.document"
    1024) = None.
Proof. reflexivity. Qed.

(** C8, at a concrete input.  The allow-list is meant to admit images,
    PDF, plain text and Word documents.  A PDF of 1 KiB, [report.pdf] with
    the MIME type [application/pdf], fails [isAllowed] and is rejected with
    the very message that asks for "images, PDFs, or documents": the list
    entry [application/pdf] has no wildcard, so it is compared with the end
    of the file name. *)
Theorem pdf_rejected :
  isAllowed (File.mk "report.pdf" "application/pdf" 1024) = false
  /\ validate (File.mk "report.pdf" "application/pdf" 1024)
     = Some "File type not allowed. Please upload images, PDFs, or documents.".
Proof. split; reflexivity. Qed.

Section collaborators.
Variable randomUUID : nat -> string.
Variable uploadError : list (string * File.t) -> string -> File.t -> option string.
Variable dbError : list file_uploads.row -> file_uploads.row -> option string.
Variable taskId : option string.
Variable userId : string.

Local Abbreviation upload_one := (upload_one randomUUID uploadError dbError taskId userId).
Local Abbreviation uploadFiles := (uploadFiles randomUUID uploadError dbError taskId userId).

(** A file that fails validation reaches neither collaborator. *)
Lemma upload_one_invalid w uploadFile message :
  validate (file uploadFile) = Some message ->
  upload_one w uploadFile =
    mkWorld
      (setFiles_at (id uploadFile)
         (fun f => mkUploadFile (id f) (file f) (progress f) "error" (Some message))
         (files w))
      (objects w) (rows w)
      (toasts w ++ [mkToast "Upload failed" message (Some "destructive")])
      (drawn w).
Proof.
  intros Hv. unfold FileUpload.upload_one, FileUpload.try_upload.
  by rewrite Hv.
Qed.

(** C9.  For a file larger than 5 MiB, one turn of [uploadFiles] stores
    no object, inserts no [file_uploads] row and draws no file name,
    whatever the storage and the database would have answered; the
    entry of the file is marked as an error with the size message,
    which is also shown as a toast. *)
Theorem oversize_rejected_before_write w uploadFile :
  5 * 1024 * 1024 < File.size (file uploadFile) ->
  let w' := upload_one w uploadFile in
  objects w' = objects w
  /\ rows w' = rows w
  /\ drawn w' = drawn w
  /\ toasts w' =
       (toasts w ++ [mkToast "Upload failed" "File size must be less than 5MB"
                       (Some "destructive")])%list
  /\ files w' =
       setFiles_at (id uploadFile)
         (fun f => mkUploadFile (id f) (file f) (progress f) "error"
                     (Some "File size must be less than 5MB"))
         (files w).
Proof.
  intros Hsize. cbv zeta.
  rewrite (upload_one_invalid w uploadFile "File size must be less than 5MB").
  - done.
  - unfold validate. apply Z.ltb_lt in Hsize. by rewrite Hsize.
Qed.

(** Whatever [uploadFiles] adds to the bucket or to [file_uploads]
    belongs to a file within the ceiling. *)
Lemma upload_one_within_ceiling w uploadFile :
  within_ceiling w -> within_ceiling (upload_one w uploadFile).
Proof.
  intros [Ho Hr]. unfold FileUpload.upload_one, FileUpload.try_upload.
  destruct (validate (file uploadFile)) as [message|] eqn:Hv; [done|].
  apply validate_None in Hv as [Hsize _].
  destruct (uploadError _ _ _); simpl; [done|].
  assert (Forall (fun o : string * File.t => File.size o.2 <= ceiling)
            (objects w ++ [("uploads/" ++ randomUUID (drawn w) ++ "."
                              ++ js.pop (js.split (File.name (file uploadFile)) "."),
                            file uploadFile)])) as Ho'.
  { apply Forall_app. split; [done|]. by constructor. }
  destruct (dbError _ _); simpl; split; try done.
  apply Forall_app. split; [done|]. by constructor.
Qed.

Lemma uploadFiles_within_ceiling filesToUpload w :
  within_ceiling w -> within_ceiling (uploadFiles filesToUpload w).
Proof.
  revert w. unfold FileUpload.uploadFiles.
  induction filesToUpload as [|f fs IH]; intros w Hw; simpl; [done|].
  apply IH. by apply upload_one_within_ceiling.
Qed.
End collaborators.

(** The file of 6 MiB, with a storage and a database that would accept
    everything. *)
Lemma oversize_rejected_before_write_witness :
  objects (upload_one (fun _ => "uuid") (fun _ _ _ => None) (fun _ _ => None)
             None "ada" (mkWorld [six_MiB_file] [] [] [] 0) six_MiB_file) = []
  /\ rows (upload_one (fun _ => "uuid") (fun _ _ _ => None) (fun _ _ => None)
             None "ada" (mkWorld [six_MiB_file] [] [] [] 0) six_MiB_file) = [].
Proof.
  pose proof (oversize_rejected_before_write (fun _ => "uuid")
                (fun _ _ _ => None) (fun _ _ => None) None "ada"
                (mkWorld [six_MiB_file] [] [] [] 0) six_MiB_file) as H.
  simpl in H. destruct H as (Ho & Hr & _); [lia|]. by split.
Defined.
End FileUpload_facts.

(** * Further properties *)

(** ** The ledger, statement by statement *)

Lemma int4pl_Ok_range (a b z : Z) : int4pl a b = Ok z -> a + b <= int4_max.
Proof.
  unfold int4pl, int4_ok. destruct (int4_min <=? a + b); simpl; [|discriminate].
  destruct (a + b <=? int4_max) eqn:E; [|discriminate].
  intros _. by apply Z.leb_le.
Qed.

Lemma tasks_update_hidden_or_written s now id patch db db' OLD :
  db_tasks db !! id = Some OLD ->
  update_tasks s now id patch db = Ok db' ->
  db' = db
  \/ (tasks_update_visible s db OLD = true
      /\ calculate_user_points s now OLD (written_row now patch OLD)
           (set_tasks (written_tasks id (patched_id id patch)
                         (written_row now patch OLD) (db_tasks db)) db)
         = Ok db').
Proof.
  intros Hrow Hok. destruct (tasks_update_visible s db OLD) eqn:Hvis.
  - right. split; [done|].
    by destruct (update_tasks_written _ _ _ _ _ _ _ Hrow Hvis Hok).
  - left. rewrite (update_tasks_hidden _ _ _ _ _ _ Hrow Hvis) in Hok.
    by injection Hok as <-.
Qed.

(** X1.  When an [UPDATE] moves a task into [completed] and the session
    may write the assignee's profile, the assignee's balance grows by the
    points of the written row, once, and no other profile changes. *)
Theorem completion_credit_exact
    (s : session) (now : timestamptz) (id : uuid) (patch : task_patch)
    (db db' : Database) (OLD : tasks.row) (u : uuid) (B : Z) :
  db_tasks db !! id = Some OLD ->
  tasks_update_visible s db OLD = true ->
  update_tasks s now id patch db = Ok db' ->
  tasks.status OLD <> "completed" ->
  tasks.status (written_row now patch OLD) = "completed" ->
  tasks.assignee_id (written_row now patch OLD) = Some u ->
  0 < tasks.points (written_row now patch OLD) ->
  balance db u = Some B ->
  profiles_update_visible s u = true ->
  balance db' u = Some (B + tasks.points (written_row now patch OLD))
  /\ forall v, v <> u -> db_profiles db' !! v = db_profiles db !! v.
Proof.
  intros Hrow Hvisible Hok Hold Hnew Hu Hpos HB Hvis. split.
  - by eapply ledger_credit.
  - intros v Hv.
    destruct (update_tasks_written _ _ _ _ _ _ _ Hrow Hvisible Hok) as [Hc _].
    fold (written_row now patch OLD) in Hc.
    rewrite calculate_user_points_credit in Hc by done. rewrite Hu in Hc.
    unfold balance in HB.
    destruct (db_profiles db !! u) as [p|] eqn:Hp; [|discriminate].
    eapply update_profiles_set_points_visible in Hc as (z & _ & Hc); [|done..].
    rewrite Hc. simpl. by rewrite lookup_insert_ne.
Qed.

Lemma completion_credit_exact_witness :
  balance (execute (sample.db 0 "in_progress" 10)
             (UPDATE sample.owner sample.now sample.t1 (sample.set_status "completed")))
    sample.ada = Some (0 + 10)
  /\ forall v, v <> sample.ada ->
       db_profiles (execute (sample.db 0 "in_progress" 10)
                      (UPDATE sample.owner sample.now sample.t1
                         (sample.set_status "completed"))) !! v
       = db_profiles (sample.db 0 "in_progress" 10) !! v.
Proof.
  apply (completion_credit_exact sample.owner sample.now sample.t1
           (sample.set_status "completed") (sample.db 0 "in_progress" 10)
           (execute (sample.db 0 "in_progress" 10)
              (UPDATE sample.owner sample.now sample.t1 (sample.set_status "completed")))
           (sample.task "in_progress" 10 (Some sample.ada) None) sample.ada 0);
    try (vm_compute; reflexivity); try discriminate.
Defined.

(** X2.  When an [UPDATE] moves a task into [overdue] and the session may
    write the assignee's profile, the assignee's balance [B] becomes
    [B - min 5 B], which is never negative. *)
Theorem overdue_debit_exact
    (s : session) (now : timestamptz) (id : uuid) (patch : task_patch)
    (db db' : Database) (OLD : tasks.row) (u : uuid) (B : Z) :
  db_tasks db !! id = Some OLD ->
  tasks_update_visible s db OLD = true ->
  update_tasks s now id patch db = Ok db' ->
  tasks.status OLD <> "overdue" ->
  tasks.status (written_row now patch OLD) = "overdue" ->
  tasks.assignee_id (written_row now patch OLD) = Some u ->
  balance db u = Some B ->
  profiles_update_visible s u = true ->
  balance db' u = Some (B - Z.min 5 B) /\ 0 <= B - Z.min 5 B.
Proof.
  intros Hrow Hvisible Hok Hold Hnew Hu HB Hvis.
  rewrite (ledger_debit s now id patch db db' OLD Hrow Hvisible Hok u B) by done.
  unfold GREATEST. split; [f_equal|]; lia.
Qed.

Lemma overdue_debit_exact_witness :
  balance (execute (sample.db 3 "pending" 20)
             (UPDATE sample.owner sample.now sample.t1 (sample.set_status "overdue")))
    sample.ada = Some (3 - Z.min 5 3)
  /\ 0 <= 3 - Z.min 5 3.
Proof.
  apply (overdue_debit_exact sample.owner sample.now sample.t1
           (sample.set_status "overdue") (sample.db 3 "pending" 20)
           (execute (sample.db 3 "pending" 20)
              (UPDATE sample.owner sample.now sample.t1 (sample.set_status "overdue")))
           (sample.task "pending" 20 (Some sample.ada) None) sample.ada 3);
    try (vm_compute; reflexivity); try discriminate.
Defined.

(** X3.  An [UPDATE] run by a signed-in user on a task assigned to
    somebody else changes no profile at all, whatever it does to the
    status: the trigger's write is hidden by the row security of
    [profiles]. *)
Theorem ledger_reaches_own_profile_only
    (v : uuid) (now : timestamptz) (id : uuid) (patch : task_patch)
    (db db' : Database) (OLD : tasks.row) (u : uuid) :
  db_tasks db !! id = Some OLD ->
  update_tasks (as_user v) now id patch db = Ok db' ->
  tasks.assignee_id (written_row now patch OLD) = Some u ->
  u <> v ->
  db_profiles db' = db_profiles db.
Proof.
  intros Hrow Hok Hu Hne.
  destruct (tasks_update_visible (as_user v) db OLD) eqn:Hvis.
  - eapply ledger_hidden; [done..|]. by apply other_profile_hidden.
  - rewrite (update_tasks_hidden _ _ _ _ _ _ Hrow Hvis) in Hok.
    by injection Hok as <-.
Qed.

Lemma ledger_reaches_own_profile_only_witness :
  db_profiles (execute (sample.db 0 "in_progress" 10)
                 (UPDATE (as_user sample.eve) sample.now sample.t1
                    (sample.set_status "completed")))
  = db_profiles (sample.db 0 "in_progress" 10).
Proof.
  apply (ledger_reaches_own_profile_only sample.eve sample.now sample.t1
           (sample.set_status "completed") (sample.db 0 "in_progress" 10)
           (execute (sample.db 0 "in_progress" 10)
              (UPDATE (as_user sample.eve) sample.now sample.t1
                 (sample.set_status "completed")))
           (sample.task "in_progress" 10 (Some sample.ada) None) sample.ada);
    try (vm_compute; reflexivity); discriminate.
Defined.

(** X4.  An [UPDATE] that leaves a task in a status other than [completed]
    and [overdue] changes no profile: starting a task earns nothing, and
    reopening a completed task takes nothing back. *)
Theorem other_transitions_change_no_profile
    (s : session) (now : timestamptz) (id : uuid) (patch : task_patch)
    (db db' : Database) (OLD : tasks.row) :
  db_tasks db !! id = Some OLD ->
  update_tasks s now id patch db = Ok db' ->
  tasks.status (written_row now patch OLD) <> "completed" ->
  tasks.status (written_row now patch OLD) <> "overdue" ->
  db_profiles db' = db_profiles db.
Proof.
  intros Hrow Hok H1 H2.
  destruct (tasks_update_hidden_or_written _ _ _ _ _ _ _ Hrow Hok) as [->|[_ Hc]];
    [done|].
  rewrite calculate_user_points_other in Hc by done. by injection Hc as <-.
Qed.

Lemma other_transitions_change_no_profile_witness :
  db_profiles (execute (sample.db 10 "completed" 10)
                 (UPDATE sample.owner sample.now sample.t1 (sample.set_status "pending")))
  = db_profiles (sample.db 10 "completed" 10).
Proof.
  apply (other_transitions_change_no_profile sample.owner sample.now sample.t1
           (sample.set_status "pending") (sample.db 10 "completed" 10)
           (execute (sample.db 10 "completed" 10)
              (UPDATE sample.owner sample.now sample.t1 (sample.set_status "pending")))
           (sample.task "completed" 10 (Some sample.ada) None));
    try (vm_compute; reflexivity); discriminate.
Defined.

(** X5.  Completing a task whose points are zero or negative changes no
    profile: the guard [IF points_to_add > 0] skips the write, so a
    negative value is never subtracted. *)
Theorem worthless_task_credits_nothing
    (s : session) (now : timestamptz) (id : uuid) (patch : task_patch)
    (db db' : Database) (OLD : tasks.row) :
  db_tasks db !! id = Some OLD ->
  update_tasks s now id patch db = Ok db' ->
  tasks.status (written_row now patch OLD) = "completed" ->
  tasks.points (written_row now patch OLD) <= 0 ->
  db_profiles db' = db_profiles db.
Proof.
  intros Hrow Hok H1 H2.
  destruct (tasks_update_hidden_or_written _ _ _ _ _ _ _ Hrow Hok) as [->|[_ Hc]];
    [done|].
  rewrite calculate_user_points_credit_skipped in Hc by done.
  by injection Hc as <-.
Qed.

Lemma worthless_task_credits_nothing_witness :
  db_profiles (execute (sample.db 10 "in_progress" (-3))
                 (UPDATE sample.owner sample.now sample.t1 (sample.set_status "completed")))
  = db_profiles (sample.db 10 "in_progress" (-3)).
Proof.
  apply (worthless_task_credits_nothing sample.owner sample.now sample.t1
           (sample.set_status "completed") (sample.db 10 "in_progress" (-3))
           (execute (sample.db 10 "in_progress" (-3))
              (UPDATE sample.owner sample.now sample.t1 (sample.set_status "completed")))
           (sample.task "in_progress" (-3) (Some sample.ada) None));
    try (vm_compute; reflexivity). vm_compute. discriminate.
Defined.

(** X6.  A completion whose credit would take the balance beyond the
    largest [INTEGER] cannot be stored: the addition raises, the statement
    is rolled back, and the task keeps its old status. *)
Theorem overflowing_credit_rolls_back
    (s : session) (now : timestamptz) (id : uuid) (patch : task_patch)
    (db : Database) (OLD : tasks.row) (u : uuid) (B : Z) :
  db_tasks db !! id = Some OLD ->
  tasks_update_visible s db OLD = true ->
  tasks.status OLD <> "completed" ->
  tasks.status (written_row now patch OLD) = "completed" ->
  tasks.assignee_id (written_row now patch OLD) = Some u ->
  0 < tasks.points (written_row now patch OLD) ->
  balance db u = Some B ->
  profiles_update_visible s u = true ->
  int4_max < B + tasks.points (written_row now patch OLD) ->
  (exists e, update_tasks s now id patch db = Err e)
  /\ execute db (UPDATE s now id patch) = db.
Proof.
  intros Hrow Hvisible Hold Hnew Hu Hpos HB Hvis Hover.
  assert (forall db', update_tasks s now id patch db <> Ok db') as Hno.
  { intros db' Hok.
    destruct (update_tasks_written _ _ _ _ _ _ _ Hrow Hvisible Hok) as [Hc _].
    fold (written_row now patch OLD) in Hc.
    rewrite calculate_user_points_credit in Hc by done. rewrite Hu in Hc.
    unfold balance in HB.
    destruct (db_profiles db !! u) as [p|] eqn:Hp; [|discriminate].
    injection HB as HB.
    eapply update_profiles_set_points_visible in Hc as (z & Hz & _); [|done..].
    apply int4pl_Ok_range in Hz. lia. }
  simpl. destruct (update_tasks s now id patch db) as [db'|e].
  - by destruct (Hno db').
  - split; [by exists e|done].
Qed.

Lemma overflowing_credit_rolls_back_witness :
  (exists e, update_tasks sample.owner sample.now sample.t1
               (sample.set_status "completed")
               (sample.db 2147483640 "in_progress" 10) = Err e)
  /\ execute (sample.db 2147483640 "in_progress" 10)
       (UPDATE sample.owner sample.now sample.t1 (sample.set_status "completed"))
     = sample.db 2147483640 "in_progress" 10.
Proof.
  apply (overflowing_credit_rolls_back sample.owner sample.now sample.t1
           (sample.set_status "completed") (sample.db 2147483640 "in_progress" 10)
           (sample.task "in_progress" 10 (Some sample.ada) None) sample.ada
           2147483640);
    try (vm_compute; reflexivity); discriminate.
Defined.

(** ** Reopening a task *)

Lemma same_key_refl (k : option uuid) : same_key k k = true.
Proof. destruct k; simpl; [apply String.eqb_refl|done]. Qed.

Lemma may_update_tasks_visible s db t :
  may_update_tasks s db -> tasks_update_visible s db t = true.
Proof.
  unfold tasks_update_visible, policy.tasks_select, policy.tasks_update.
  intros [->| ->]; [done|]. by rewrite !orb_true_r.
Qed.

(** An [UPDATE] that sets a valid status and nothing else passes every
    check before the trigger. *)
Lemma update_tasks_only_status s now id status db OLD :
  db_tasks db !! id = Some OLD ->
  may_update_tasks s db ->
  tasks.check_constraints (written_row now (only_status status) OLD) = true ->
  update_tasks s now id (only_status status) db =
    calculate_user_points s now OLD (written_row now (only_status status) OLD)
      (set_tasks (<[id := written_row now (only_status status) OLD]> (db_tasks db)) db).
Proof.
  intros Hrow Hs Hcheck. unfold update_tasks. rewrite Hrow.
  rewrite (may_update_tasks_visible s db OLD Hs). cbv zeta.
  fold (written_row now (only_status status) OLD).
  unfold tasks_update_check.
  change (bypassrls s || policy.tasks_select s db (written_row now (only_status status) OLD)
          && policy.tasks_update s db)
    with (tasks_update_visible s db (written_row now (only_status status) OLD)).
  rewrite (may_update_tasks_visible s db _ Hs), Hcheck. simpl negb. cbv iota.
  change (patched_id id (only_status status)) with id.
  rewrite tasks_id_taken_same, tasks_referenced_same, written_tasks_same_id.
  unfold tasks_fk_on_update. simpl tasks.assignee_id. simpl tasks.created_by.
  by rewrite !same_key_refl.
Qed.

(** X7.  The ledger looks at the change of status alone: a completed task
    that is reopened and completed again credits its points a second
    time.  After the two [UPDATE]s the task is [completed] as before and
    the assignee has the points once more. *)
Theorem reopen_and_complete_credits_again
    (s : session) (now1 now2 : timestamptz) (id : uuid) (db : Database)
    (OLD : tasks.row) (u : uuid) (B : Z) :
  db_tasks db !! id = Some OLD ->
  tasks.status OLD = "completed" ->
  tasks.check_constraints OLD = true ->
  tasks.assignee_id OLD = Some u ->
  0 < tasks.points OLD ->
  balance db u = Some B ->
  int4_ok (B + tasks.points OLD) = true ->
  may_update_tasks s db ->
  profiles_update_visible s u = true ->
  balance (execute_all db [UPDATE s now1 id (only_status "pending");
                           UPDATE s now2 id (only_status "completed")]) u
  = Some (B + tasks.points OLD)
  /\ tasks.status <$>
       db_tasks (execute_all db [UPDATE s now1 id (only_status "pending");
                                  UPDATE s now2 id (only_status "completed")]) !! id
     = Some "completed".
Proof.
  intros Hrow Hst Hcheck Hu Hpos HB Hfit Hs Hvis.
  assert (sql_in (tasks.priority OLD) ["low"; "medium"; "high"] = true) as Hprio.
  { unfold tasks.check_constraints in Hcheck. by apply andb_true_iff in Hcheck as [_ ?]. }
  unfold execute_all. cbn [fold_left execute].
  (* reopening *)
  rewrite (update_tasks_only_status s now1 id "pending" db OLD Hrow Hs)
    by (apply andb_true_iff; split; [reflexivity|exact Hprio]).
  rewrite calculate_user_points_other by (simpl; discriminate).
  set (T1 := written_row now1 (only_status "pending") OLD).
  set (db1 := set_tasks (<[id := T1]> (db_tasks db)) db).
  (* completing again *)
  assert (db_tasks db1 !! id = Some T1) as Hrow1 by (simpl; apply lookup_insert_eq).
  assert (may_update_tasks s db1) as Hs1 by exact Hs.
  rewrite (update_tasks_only_status s now2 id "completed" db1 T1 Hrow1 Hs1)
    by (apply andb_true_iff; split; [reflexivity|exact Hprio]).
  set (T2 := written_row now2 (only_status "completed") T1).
  rewrite calculate_user_points_credit; [|done|simpl; discriminate|done].
  change (tasks.assignee_id T2) with (tasks.assignee_id OLD). rewrite Hu.
  change (tasks.points T2) with (tasks.points OLD).
  unfold balance in HB.
  destruct (db_profiles db !! u) as [p|] eqn:Hp; [|discriminate].
  injection HB as HB.
  unfold update_profiles_set_points.
  change (db_profiles (set_tasks (<[id := T2]> (db_tasks db1)) db1))
    with (db_profiles db).
  rewrite Hp, Hvis. unfold credit, int4pl. rewrite HB, Hfit. simpl mbind.
  unfold profiles_update_check. unfold profiles_update_visible in Hvis.
  rewrite Hvis. split.
  - unfold balance. simpl. by rewrite lookup_insert_eq.
  - simpl. by rewrite lookup_insert_eq.
Qed.

Lemma reopen_and_complete_credits_again_witness :
  balance (execute_all (sample.db 10 "completed" 10)
             [UPDATE sample.owner sample.now sample.t1 (only_status "pending");
              UPDATE sample.owner sample.now sample.t1 (only_status "completed")])
    sample.ada
  = Some (10 + 10)
  /\ tasks.status <$>
       db_tasks (execute_all (sample.db 10 "completed" 10)
                   [UPDATE sample.owner sample.now sample.t1 (only_status "pending");
                    UPDATE sample.owner sample.now sample.t1 (only_status "completed")])
         !! sample.t1
     = Some "completed".
Proof.
  apply (reopen_and_complete_credits_again sample.owner sample.now sample.now
           sample.t1 (sample.db 10 "completed" 10)
           (sample.task "completed" 10 (Some sample.ada) None) sample.ada 10);
    try (vm_compute; reflexivity).
  left. reflexivity.
Defined.

(** ** What statements on [tasks] never do *)

Section roles.
Variables (s : session) (now : timestamptz).

Lemma update_profiles_set_points_role expr who db db' w :
  update_profiles_set_points s now expr who db = Ok db' ->
  profiles.role <$> db_profiles db' !! w = profiles.role <$> db_profiles db !! w.
Proof.
  unfold update_profiles_set_points.
  destruct who as [u|]; [|by intros [= <-]].
  destruct (db_profiles db !! u) as [p|] eqn:Hp; [|by intros [= <-]].
  destruct (profiles_update_visible s u); [|by intros [= <-]].
  intros H. apply bind_Ok in H as (z & _ & H).
  destruct (profiles_update_check s u); [|discriminate].
  injection H as <-. simpl.
  destruct (decide (u = w)) as [->|Hne].
  - by rewrite lookup_insert_eq, Hp.
  - by rewrite lookup_insert_ne.
Qed.

Lemma calculate_user_points_role OLD NEW db db' w :
  calculate_user_points s now OLD NEW db = Ok db' ->
  profiles.role <$> db_profiles db' !! w = profiles.role <$> db_profiles db !! w.
Proof.
  unfold calculate_user_points. cbv zeta. intros H.
  apply bind_Ok in H as (db1 & H1 & H2).
  transitivity (profiles.role <$> db_profiles db1 !! w).
  - destruct (0 <? _) in H2; [|by injection H2 as <-].
    by eapply update_profiles_set_points_role.
  - destruct (0 <? _) in H1; [|by injection H1 as <-].
    by eapply update_profiles_set_points_role.
Qed.
End roles.

Lemma execute_role db q w :
  profiles.role <$> db_profiles (execute db q) !! w
  = profiles.role <$> db_profiles db !! w.
Proof.
  destruct q as [s now id v|s now id patch]; simpl.
  - destruct (insert_tasks s now id v db) as [db'|] eqn:H; [|done].
    by rewrite (insert_tasks_profiles _ _ _ _ _ _ H).
  - destruct (update_tasks s now id patch db) as [db'|] eqn:H; [|done].
    destruct (db_tasks db !! id) as [OLD|] eqn:Hrow.
    + destruct (tasks_update_hidden_or_written _ _ _ _ _ _ _ Hrow H) as [->|[_ Hc]];
        [done|].
      by rewrite (calculate_user_points_role _ _ _ _ _ _ w Hc).
    + rewrite update_tasks_no_row in H by done. by injection H as <-.
Qed.

(** X8.  No history of [INSERT]s and [UPDATE]s on [tasks] changes the role
    of any user or adds or removes a profile, so every policy that asks
    for a role answers after the history as it did before. *)
Theorem task_statements_keep_roles (db : Database) (qs : list statement) :
  (forall w, profiles.role <$> db_profiles (execute_all db qs) !! w
             = profiles.role <$> db_profiles db !! w)
  /\ (forall s roles,
        exists_profile_with_role s (execute_all db qs) roles
        = exists_profile_with_role s db roles).
Proof.
  assert (forall w, profiles.role <$> db_profiles (execute_all db qs) !! w
                    = profiles.role <$> db_profiles db !! w) as Hrole.
  { intros w. unfold execute_all. revert db.
    induction qs as [|q qs IH]; intros db; simpl; [done|].
    by rewrite IH, execute_role. }
  split; [done|].
  intros s roles. unfold exists_profile_with_role.
  destruct (auth_uid s) as [u|]; [|done].
  specialize (Hrole u).
  destruct (db_profiles (execute_all db qs) !! u) as [p'|],
           (db_profiles db !! u) as [p|]; simpl in Hrole; try discriminate; [|done].
  by injection Hrole as ->.
Qed.

Lemma written_tasks_size (id new_id : uuid) (OLD NEW : tasks.row)
    (m : gmap string tasks.row) :
  m !! id = Some OLD ->
  new_id = id \/ m !! new_id = None ->
  size (written_tasks id new_id NEW m) = size m.
Proof.
  intros Hid Hnew. assert (is_Some (m !! id)) as Hsome by (by exists OLD).
  destruct Hnew as [->|Hnew].
  - rewrite written_tasks_same_id. by apply map_size_insert_Some.
  - unfold written_tasks.
    assert (new_id <> id) as Hne by (intros ->; congruence).
    rewrite map_size_insert_None by (by rewrite lookup_delete_ne).
    rewrite map_size_delete_Some by done.
    pose proof (map_size_ne_0_lookup_2 m id Hsome). lia.
Qed.

Lemma tasks_id_not_taken (id new_id : uuid) (db : Database) :
  tasks_id_taken id new_id db = false ->
  new_id = id \/ db_tasks db !! new_id = None.
Proof.
  unfold tasks_id_taken. destruct (String.eqb new_id id) eqn:E.
  - apply String.eqb_eq in E. by left.
  - simpl. intros H. right. apply bool_decide_eq_false in H.
    by apply eq_None_not_Some.
Qed.

Lemma execute_size db q :
  (size (db_tasks db) <= size (db_tasks (execute db q)))%nat.
Proof.
  destruct q as [s now id v|s now id patch]; simpl.
  - destruct (insert_tasks s now id v db) as [db'|] eqn:H; [|done].
    unfold insert_tasks in H.
    destruct (negb (tasks_insert_check s db)); [discriminate|].
    destruct (negb (tasks.check_constraints _)); [discriminate|].
    destruct (db_tasks db !! id) eqn:Hid; [discriminate|].
    destruct (negb (tasks_fk_on_insert _ _)); [discriminate|].
    injection H as <-. simpl. rewrite map_size_insert_None by done. lia.
  - destruct (update_tasks s now id patch db) as [db'|] eqn:H; [|done].
    destruct (db_tasks db !! id) as [OLD|] eqn:Hrow.
    + destruct (tasks_update_visible s db OLD) eqn:Hvis.
      * destruct (update_tasks_written _ _ _ _ _ _ _ Hrow Hvis H) as (_ & Ht & Hfree).
        rewrite Ht, (written_tasks_size _ _ OLD); [done..|].
        by apply tasks_id_not_taken.
      * rewrite (update_tasks_hidden _ _ _ _ _ _ Hrow Hvis) in H.
        by injection H as <-.
    + rewrite update_tasks_no_row in H by done. by injection H as <-.
Qed.

Lemma execute_keeps_tasks db q i t :
  keeps_key q ->
  db_tasks db !! i = Some t ->
  exists t', db_tasks (execute db q) !! i = Some t'
    /\ tasks.created_at t' = tasks.created_at t.
Proof.
  intros Hq Hi. destruct q as [s now id v|s now id patch]; simpl.
  - destruct (insert_tasks s now id v db) as [db'|] eqn:H; [|by exists t].
    unfold insert_tasks in H.
    destruct (negb (tasks_insert_check s db)); [discriminate|].
    destruct (negb (tasks.check_constraints _)); [discriminate|].
    destruct (db_tasks db !! id) eqn:Hid; [discriminate|].
    destruct (negb (tasks_fk_on_insert _ _)); [discriminate|].
    injection H as <-. exists t. split; [|done]. simpl.
    rewrite lookup_insert_ne; [done|]. intros ->. congruence.
  - destruct Hq as [Hkey Hcreated].
    destruct (update_tasks s now id patch db) as [db'|] eqn:H; [|by exists t].
    destruct (db_tasks db !! id) as [OLD|] eqn:Hrow.
    + destruct (tasks_update_visible s db OLD) eqn:Hvis.
      * destruct (update_tasks_written _ _ _ _ _ _ _ Hrow Hvis H) as (_ & Ht & _).
        rewrite Ht, (patched_id_None _ _ Hkey), written_tasks_same_id.
        destruct (decide (id = i)) as [->|Hne].
        -- rewrite lookup_insert_eq. eexists. split; [done|].
           simpl. rewrite Hcreated. simpl. congruence.
        -- rewrite lookup_insert_ne by done. by exists t.
      * rewrite (update_tasks_hidden _ _ _ _ _ _ Hrow Hvis) in H.
        injection H as <-. by exists t.
    + rewrite update_tasks_no_row in H by done. injection H as <-. by exists t.
Qed.

(** An [UPDATE] that names [id], which the policy lets an employee send,
    moves the task: nothing is stored under the old key afterwards. *)
Example update_tasks_moves_the_row :
  let db' :=
    execute (sample.db 0 "pending" 10)
      (UPDATE (as_user sample.eve) sample.now sample.t1
         (mkPatch None None None None None None None None None
            (Some sample.t2) (Some sample.now) None)) in
  db_tasks db' !! sample.t1 = None
  /\ tasks.created_at <$> db_tasks db' !! sample.t2 = Some sample.now.
Proof. split; vm_compute; reflexivity. Qed.

(** The key it moves to must be free, and no upload may name the key it
    leaves. *)
Example update_tasks_key_taken :
  let db := sample.db 0 "pending" 10 in
  update_tasks (as_user sample.eve) sample.now sample.t1
    (mkPatch None None None None None None None None None
       (Some sample.t2) None None)
    (set_tasks (<[sample.t2 := sample.task "pending" 5 None None]> (db_tasks db)) db)
  = Err unique_violation.
Proof. vm_compute. reflexivity. Qed.

Example update_tasks_key_referenced :
  let db := sample.db 0 "pending" 10 in
  update_tasks (as_user sample.eve) sample.now sample.t1
    (mkPatch None None None None None None None None None
       (Some sample.t2) None None)
    (mkDatabase (db_profiles db) (db_tasks db) [Some sample.t1])
  = Err foreign_key_violation.
Proof. vm_compute. reflexivity. Qed.

(** X9.  No history of [INSERT]s and [UPDATE]s on [tasks] makes the table
    smaller.  And when no [UPDATE] of the history names [id] or
    [created_at] in its [SET] list, as none of the client does, a task
    stored before the history is stored after it under the same [id] and
    with the same [created_at]. *)
Theorem tasks_are_never_lost (db : Database) (qs : list statement) :
  (size (db_tasks db) <= size (db_tasks (execute_all db qs)))%nat
  /\ (Forall keeps_key qs ->
      forall i t,
        db_tasks db !! i = Some t ->
        exists t', db_tasks (execute_all db qs) !! i = Some t'
          /\ tasks.created_at t' = tasks.created_at t).
Proof.
  unfold execute_all. revert db.
  induction qs as [|q qs IH]; intros db; simpl.
  - split; [done|]. intros _ i t Hi. by exists t.
  - destruct (IH (execute db q)) as [Hsize Hkeep]. split.
    + pose proof (execute_size db q). lia.
    + intros Hqs i t Hi. apply Forall_cons in Hqs as [Hq Hqs].
      destruct (execute_keeps_tasks db q i t Hq Hi) as (t1 & H1 & Hc1).
      destruct (Hkeep Hqs i t1 H1) as (t' & H' & Hc'). exists t'.
      split; [done|]. congruence.
Qed.

Lemma tasks_are_never_lost_witness :
  exists t',
    db_tasks (execute_all (sample.db 0 "pending" 10)
                [INSERT (as_user sample.eve) sample.now sample.t1
                   (mkValues "Again" None None None None None None None None);
                 UPDATE sample.owner sample.now sample.t1
                   (sample.set_status "completed")]) !! sample.t1 = Some t'
    /\ tasks.created_at t'
       = tasks.created_at (sample.task "pending" 10 (Some sample.ada) None).
Proof.
  apply (proj2 (tasks_are_never_lost (sample.db 0 "pending" 10)
           [INSERT (as_user sample.eve) sample.now sample.t1
              (mkValues "Again" None None None None None None None None);
            UPDATE sample.owner sample.now sample.t1 (sample.set_status "completed")])).
  - repeat constructor.
  - vm_compute. reflexivity.
Defined.

(** ** What [updateTaskStatus] leaves alone *)

(** X10.  [updateTaskStatus] changes at most the status, [completed_at]
    and [updated_at] of the task it names: that task keeps its title,
    description, priority, points, due date, assignee, creator and
    [created_at], and every other task is left as it was. *)
Theorem updateTaskStatus_frame
    (s : session) (now toISOString : timestamptz) (taskId : uuid)
    (status : string) (db : Database) (i : uuid) (t : tasks.row) :
  db_tasks db !! i = Some t ->
  exists t',
    db_tasks (updateTaskStatus s now toISOString taskId status db).1 !! i = Some t'
    /\ (i <> taskId -> t' = t)
    /\ tasks.title t' = tasks.title t
    /\ tasks.description t' = tasks.description t
    /\ tasks.priority t' = tasks.priority t
    /\ tasks.points t' = tasks.points t
    /\ tasks.due_date t' = tasks.due_date t
    /\ tasks.assignee_id t' = tasks.assignee_id t
    /\ tasks.created_by t' = tasks.created_by t
    /\ tasks.created_at t' = tasks.created_at t.
Proof.
  intros Hi. unfold updateTaskStatus.
  destruct (update_tasks _ _ _ _ _) as [db'|e] eqn:Hok; simpl;
    [|exists t; repeat split; done].
  destruct (db_tasks db !! taskId) as [OLD|] eqn:Hrow.
  - destruct (tasks_update_visible s db OLD) eqn:Hvis.
    + destruct (update_tasks_written _ _ _ _ _ _ _ Hrow Hvis Hok) as (_ & Ht & _).
      change (patched_id taskId _) with taskId in Ht.
      rewrite written_tasks_same_id in Ht.
      rewrite Ht. destruct (decide (taskId = i)) as [->|Hne].
      * rewrite lookup_insert_eq. eexists. split; [done|].
        assert (OLD = t) as -> by congruence.
        repeat split; done.
      * rewrite lookup_insert_ne by done. exists t. repeat split; done.
    + rewrite (update_tasks_hidden _ _ _ _ _ _ Hrow Hvis) in Hok.
      injection Hok as <-. exists t. repeat split; done.
  - rewrite update_tasks_no_row in Hok by done. injection Hok as <-.
    exists t. repeat split; done.
Qed.

Lemma updateTaskStatus_frame_witness :
  exists t',
    db_tasks (updateTaskStatus (as_user sample.eve) sample.now sample.clock
                sample.t1 "completed" (sample.db 0 "in_progress" 10)).1
      !! sample.t1 = Some t'
    /\ (sample.t1 <> sample.t1 ->
        t' = sample.task "in_progress" 10 (Some sample.ada) None)
    /\ tasks.title t' = "Write report"
    /\ tasks.description t' = None
    /\ tasks.priority t' = "medium"
    /\ tasks.points t' = 10
    /\ tasks.due_date t' = None
    /\ tasks.assignee_id t' = Some sample.ada
    /\ tasks.created_by t' = Some sample.eve
    /\ tasks.created_at t' = sample.created.
Proof.
  apply (updateTaskStatus_frame (as_user sample.eve) sample.now sample.clock
           sample.t1 "completed" (sample.db 0 "in_progress" 10) sample.t1
           (sample.task "in_progress" 10 (Some sample.ada) None)).
  vm_compute. reflexivity.
Defined.

(** ** White space *)

Lemma list_ascii_rev_app (s1 s2 : string) :
  list_ascii_of_string (String.rev_app s1 s2)
  = (List.rev (list_ascii_of_string s1) ++ list_ascii_of_string s2)%list.
Proof.
  revert s2. induction s1 as [|c s1 IH]; intros s2; simpl; [done|].
  rewrite IH. simpl. by rewrite <- app_assoc.
Qed.

Lemma list_ascii_rev (x : string) :
  list_ascii_of_string (String.rev x) = List.rev (list_ascii_of_string x).
Proof. unfold String.rev. rewrite list_ascii_rev_app. simpl. apply app_nil_r. Qed.

Lemma white_space_prefix_shorter (x rest : string) :
  white_space_prefix x = Some rest -> (String.length rest < String.length x)%nat.
Proof.
  destruct x as [|c1 [|c2 [|c3 x3]]]; cbn [white_space_prefix]; try discriminate;
    repeat case_match; try discriminate; intros [= <-]; simpl; lia.
Qed.

Lemma trimStart_unfold (x : string) :
  trimStart x =
    match white_space_prefix x with
    | Some rest => trimStart rest
    | None => x
    end.
Proof.
  destruct x as [|c1 [|c2 [|c3 x3]]];
    cbn [trimStart all_white_space white_space_prefix]; try done;
    destruct (white_space_1 c1); try done;
    destruct (white_space_2 c1 c2); try done;
    by destruct (white_space_3 c1 c2 c3).
Qed.

Lemma all_white_space_unfold (x : string) :
  all_white_space x =
    match x with
    | EmptyString => true
    | String _ _ =>
        match white_space_prefix x with
        | Some rest => all_white_space rest
        | None => false
        end
    end.
Proof.
  destruct x as [|c1 [|c2 [|c3 x3]]];
    cbn [trimStart all_white_space white_space_prefix]; try done;
    destruct (white_space_1 c1); try done;
    destruct (white_space_2 c1 c2); try done;
    by destruct (white_space_3 c1 c2 c3).
Qed.

Lemma all_white_space_blank (x : string) : all_white_space x = true <-> blank x.
Proof.
  split.
  - remember (String.length x) as n eqn:Hn. revert x Hn.
    induction n as [n IH] using lt_wf_ind. intros x -> H.
    rewrite all_white_space_unfold in H. destruct x as [|c x']; [constructor|].
    destruct (white_space_prefix (String c x')) as [rest|] eqn:Hp; [|discriminate].
    econstructor; [exact Hp|].
    eapply IH; [|reflexivity|exact H]. by apply white_space_prefix_shorter.
  - induction 1 as [|x rest Hp _ IH]; [done|].
    rewrite all_white_space_unfold. destruct x; [discriminate|]. by rewrite Hp.
Qed.

Lemma all_white_space_trimStart (x : string) :
  all_white_space (trimStart x) = all_white_space x.
Proof.
  remember (String.length x) as n eqn:Hn. revert x Hn.
  induction n as [n IH] using lt_wf_ind. intros x ->.
  rewrite trimStart_unfold, (all_white_space_unfold x).
  destruct (white_space_prefix x) as [rest|] eqn:Hp.
  - destruct x as [|c x']; [discriminate|].
    eapply IH; [|reflexivity]. by apply white_space_prefix_shorter.
  - destruct x; [done|]. rewrite all_white_space_unfold. by rewrite Hp.
Qed.

Lemma trimEnd_empty (x : string) : trimEnd x = "" <-> all_white_space x = true.
Proof.
  destruct x as [|c x]; [done|]. cbn [trimEnd].
  destruct (all_white_space (String c x)); split; done.
Qed.

(** [x.trim()] is empty exactly for the strings of white space. *)
Lemma trim_blank (x : string) : trim x = "" <-> blank x.
Proof.
  unfold trim.
  by rewrite trimEnd_empty, all_white_space_trimStart, all_white_space_blank.
Qed.

(** What [trimStart] returns starts with no white space, and what
    [trimEnd] cuts off is white space. *)
Lemma trimStart_no_prefix (x : string) : white_space_prefix (trimStart x) = None.
Proof.
  remember (String.length x) as n eqn:Hn. revert x Hn.
  induction n as [n IH] using lt_wf_ind. intros x ->.
  rewrite trimStart_unfold.
  destruct (white_space_prefix x) as [rest|] eqn:Hp; [|done].
  eapply IH; [|reflexivity]. by apply white_space_prefix_shorter.
Qed.

Lemma trimEnd_append (x : string) :
  exists w, all_white_space w = true /\ x = trimEnd x ++ w.
Proof.
  induction x as [|c x (w & Hw & IH)]; [by exists ""|]. cbn [trimEnd].
  destruct (all_white_space (String c x)) eqn:E.
  - by exists (String c x).
  - exists w. split; [done|].
    change (String c x = String c (trimEnd x ++ w)). by f_equal.
Qed.

Lemma white_space_prefix_append (x rest y : string) :
  white_space_prefix x = Some rest ->
  white_space_prefix (x ++ y) = Some (rest ++ y).
Proof.
  destruct x as [|c1 [|c2 [|c3 x3]]]; [discriminate|..].
  - change (String c1 "" ++ y) with (String c1 y).
    cbn [white_space_prefix].
    destruct (white_space_1 c1); [by intros [= <-]|discriminate].
  - change (String c1 (String c2 "") ++ y) with (String c1 (String c2 y)).
    cbn [white_space_prefix].
    destruct (white_space_1 c1); [by intros [= <-]|].
    destruct (white_space_2 c1 c2); [by intros [= <-]|discriminate].
  - change (String c1 (String c2 (String c3 x3)) ++ y)
      with (String c1 (String c2 (String c3 (x3 ++ y)))).
    cbn [white_space_prefix].
    destruct (white_space_1 c1); [by intros [= <-]|].
    destruct (white_space_2 c1 c2); [by intros [= <-]|].
    destruct (white_space_3 c1 c2 c3); [by intros [= <-]|discriminate].
Qed.

Lemma blank_append (x y : string) : blank x -> blank y -> blank (x ++ y).
Proof.
  induction 1 as [|x rest Hp _ IH]; intros Hy; [done|].
  econstructor; [by apply white_space_prefix_append|by apply IH].
Qed.

(** What [trimEnd] returns ends with no white space. *)
Lemma trimEnd_no_suffix (x p w : string) :
  trimEnd x = p ++ w -> blank w -> w = "".
Proof.
  revert p. induction x as [|c x IH]; intros p H Hw; cbn [trimEnd] in H.
  - destruct p; [done|discriminate].
  - destruct (all_white_space (String c x)) eqn:E.
    + destruct p; [done|discriminate].
    + destruct p as [|d p].
      * change ("" ++ w) with w in H. subst w.
        destruct (trimEnd_append x) as (w' & Hw' & Hx).
        apply all_white_space_blank in Hw'.
        pose proof (blank_append _ _ Hw Hw') as Hall.
        change (String c (trimEnd x) ++ w') with (String c (trimEnd x ++ w')) in Hall.
        rewrite <- Hx in Hall. apply all_white_space_blank in Hall. congruence.
      * change (String d p ++ w) with (String d (p ++ w)) in H.
        injection H as _ H. by eapply IH.
Qed.

(** The white space [trim] strips is that of [String.prototype.trim], not
    the ASCII part of it: a no-break space goes, and the byte A0 that ends
    a letter stays. *)
Example trim_no_break_space :
  trim (no_break_space ++ " Fix the build" ++ no_break_space) = "Fix the build".
Proof. reflexivity. Qed.

Example trim_keeps_letters :
  trim (" voil" ++ a_grave ++ " ") = "voil" ++ a_grave.
Proof. reflexivity. Qed.

Example no_break_space_blank : blank (no_break_space ++ " ").
Proof. apply all_white_space_blank. reflexivity. Qed.

Example createTask_no_break_space :
  createTask (as_user sample.eve) sample.now sample.t2 sample.eve
    (mkEmployeeDashboardState true
       (mkNewTask no_break_space "text" "high" 10 "" ""))
    (sample.db 0 "pending" 10)
  = (sample.db 0 "pending" 10,
     mkEmployeeDashboardState true
       (mkNewTask no_break_space "text" "high" 10 "" ""),
     mkToast "Error" "Task title is required" (Some "destructive")).
Proof. reflexivity. Qed.

(** ** [createTask] *)

(** X11.  [createTask] answers "Task title is required" exactly when the
    title consists of white space only (or is empty), and then it sends
    nothing: the database and the form are as they were, whoever runs
    it. *)
Theorem createTask_blank_title
    (s : session) (now : timestamptz) (id : uuid) (profile_user_id : uuid)
    (st : EmployeeDashboardState) (db : Database) :
  ((createTask s now id profile_user_id st db).2
     = mkToast "Error" "Task title is required" (Some "destructive")
   <-> blank (nt_title (newTask st)))
  /\ (blank (nt_title (newTask st)) ->
      (createTask s now id profile_user_id st db).1 = (db, st)).
Proof.
  unfold createTask.
  destruct (String.eqb (trim (nt_title (newTask st))) "") eqn:E.
  - apply String.eqb_eq, trim_blank in E. by repeat split.
  - apply String.eqb_neq in E.
    assert (~ blank (nt_title (newTask st))) as Hnb
      by (intros Hb; by apply E, trim_blank).
    split; [|done].
    destruct (insert_tasks _ _ _ _ _); simpl; (split; [discriminate|done]).
Qed.

Lemma createTask_blank_title_witness :
  (createTask (as_user sample.eve) sample.now sample.t2 sample.eve
     (mkEmployeeDashboardState true (mkNewTask "   " "text" "high" 10 "" ""))
     (sample.db 0 "pending" 10)).1
  = (sample.db 0 "pending" 10,
     mkEmployeeDashboardState true (mkNewTask "   " "text" "high" 10 "" "")).
Proof.
  apply (proj2 (createTask_blank_title (as_user sample.eve) sample.now sample.t2
                  sample.eve
                  (mkEmployeeDashboardState true
                     (mkNewTask "   " "text" "high" 10 "" ""))
                  (sample.db 0 "pending" 10))).
  apply all_white_space_blank. reflexivity.
Defined.

(** ** [completed_at] over the life of a task *)

Lemma createTask_keeps_consistent s now id profile_user_id st db :
  tasks_consistent db ->
  tasks_consistent (createTask s now id profile_user_id st db).1.1.
Proof.
  intros Hdb. unfold createTask.
  destruct (String.eqb _ ""); [done|].
  destruct (insert_tasks _ _ _ _ _) as [db'|] eqn:H; [|done]. simpl.
  unfold insert_tasks in H.
  destruct (negb (tasks_insert_check s db)); [discriminate|].
  destruct (negb (tasks.check_constraints _)); [discriminate|].
  destruct (db_tasks db !! id); [discriminate|].
  destruct (negb (tasks_fk_on_insert _ _)); [discriminate|].
  injection H as <-. unfold tasks_consistent. simpl.
  apply map_Forall_insert_2; [|done].
  unfold completed_at_consistent. simpl. split; [done|discriminate].
Qed.

Lemma updateTaskStatus_keeps_consistent s now toISOString taskId status db :
  tasks_consistent db ->
  tasks_consistent (updateTaskStatus s now toISOString taskId status db).1.
Proof.
  intros Hdb. unfold tasks_consistent.
  destruct (updateTaskStatus_table s now toISOString taskId status db)
    as [Ht|(OLD & NEW & _ & _ & Ht & _ & Hc)]; rewrite Ht; [done|].
  by apply map_Forall_insert_2.
Qed.

(** X12.  Through the client a task is only ever written by [createTask]
    and [updateTaskStatus]; whatever calls are made, by whomever and in
    whatever order, if [completed_at] was set exactly on the completed
    tasks before, it is so after every call. *)
Theorem client_keeps_completed_at
    (db : Database) (cs : list client_call) (n : nat) :
  tasks_consistent db ->
  tasks_consistent (client_run db (take n cs)).
Proof.
  unfold client_run. generalize (take n cs). clear cs n. intros cs. revert db.
  induction cs as [|c cs IH]; intros db Hdb; simpl; [done|].
  apply IH. destruct c; simpl.
  - by apply createTask_keeps_consistent.
  - by apply updateTaskStatus_keeps_consistent.
Qed.

Lemma client_keeps_completed_at_witness :
  tasks_consistent
    (client_run (sample.db 0 "pending" 10)
       (take 3
          [CreateTask (as_user sample.eve) sample.now sample.t2 sample.eve
             (mkEmployeeDashboardState true
                (mkNewTask "Review" "" "high" 20 "" sample.ada));
           UpdateTaskStatus (as_user sample.eve) sample.now sample.clock
             sample.t2 "completed";
           UpdateTaskStatus (as_user sample.eve) sample.now sample.clock
             sample.t2 "pending"])).
Proof.
  apply (client_keeps_completed_at (sample.db 0 "pending" 10)).
  unfold tasks_consistent, sample.db. simpl.
  apply map_Forall_insert_2; [|apply map_Forall_empty].
  unfold completed_at_consistent. simpl. split; [done|discriminate].
Defined.

(** ** The profile of the signed-in user *)

Lemma insert_profiles_Ok s now id v db db' :
  insert_profiles s now id v db = Ok db' ->
  profiles_insert_check s (pv_user_id v) = true
  /\ profiles_check_constraints (new_profile_row now id v) = true
  /\ profile_id_taken id (db_profiles db) = false
  /\ db_profiles db !! pv_user_id v = None
  /\ db' = set_profiles (<[pv_user_id v := new_profile_row now id v]> (db_profiles db)) db.
Proof.
  unfold insert_profiles. cbv zeta.
  destruct (profiles_insert_check s (pv_user_id v)); [|discriminate].
  destruct (profiles_check_constraints _); [|discriminate].
  destruct (profile_id_taken id (db_profiles db)); [discriminate|].
  destruct (db_profiles db !! pv_user_id v); [discriminate|].
  simpl. intros [= <-]. by repeat split.
Qed.

Lemma onAuthStateChange_created now id user db p :
  db_profiles db !! user_id user = None ->
  (onAuthStateChange now id user db).1.2 = Some p ->
  (onAuthStateChange now id user db).1.1
    = set_profiles (<[user_id user := p]> (db_profiles db)) db
  /\ p = new_profile_row now id
           (mkProfileValues (user_id user) (user_email user)
              (opt_or_null (meta_full_name user))
              (Some (opt_or (meta_role user) "intern"))
              (opt_or_null (meta_department user)) None None None)
  /\ profile_id_taken id (db_profiles db) = false.
Proof.
  intros Hnone. unfold onAuthStateChange. rewrite Hnone.
  destruct (insert_profiles _ _ _ _ _) as [db'|] eqn:H; simpl; [|discriminate].
  apply insert_profiles_Ok in H as (_ & _ & Hid & _ & ->). simpl.
  rewrite lookup_insert_eq. intros [= <-]. by repeat split.
Qed.

(** X13.  Once [Dashboard] has a profile for a user, every later sign-in
    of that user, whatever metadata it carries, finds the same profile and
    changes nothing: a profile is created at most once and never
    rewritten from the metadata. *)
Theorem profile_is_created_once
    (now now' : timestamptz) (id id' : uuid) (user user' : User)
    (db : Database) (p : profiles.row) :
  (onAuthStateChange now id user db).1.2 = Some p ->
  user_id user' = user_id user ->
  onAuthStateChange now' id' user' (onAuthStateChange now id user db).1.1
  = ((onAuthStateChange now id user db).1.1, Some p, None).
Proof.
  intros Hp Hu.
  assert (db_profiles (onAuthStateChange now id user db).1.1 !! user_id user
          = Some p) as Hstored.
  { destruct (db_profiles db !! user_id user) as [q|] eqn:Hq.
    - unfold onAuthStateChange in *. rewrite Hq in *. simpl in *. congruence.
    - destruct (onAuthStateChange_created now id user db p Hq Hp) as (-> & _ & _).
      simpl. apply lookup_insert_eq. }
  unfold onAuthStateChange at 1. by rewrite Hu, Hstored.
Qed.

Lemma profile_is_created_once_witness :
  onAuthStateChange sample.now "profile-zoe-2"
    (mkUser "zoe" "zoe@example.org" None (Some "admin") None)
    (onAuthStateChange sample.created "profile-zoe"
       (mkUser "zoe" "zoe@example.org" (Some "Zoe") None None)
       (sample.db 0 "pending" 10)).1.1
  = ((onAuthStateChange sample.created "profile-zoe"
        (mkUser "zoe" "zoe@example.org" (Some "Zoe") None None)
        (sample.db 0 "pending" 10)).1.1,
     Some (profiles.mk "profile-zoe" "zoe@example.org" (Some "Zoe") "intern"
             None None None 0 sample.created sample.created),
     None).
Proof.
  apply (profile_is_created_once sample.created sample.now "profile-zoe"
           "profile-zoe-2"
           (mkUser "zoe" "zoe@example.org" (Some "Zoe") None None)
           (mkUser "zoe" "zoe@example.org" None (Some "admin") None)
           (sample.db 0 "pending" 10));
    vm_compute; reflexivity.
Defined.

(** X14.  A profile that [Dashboard] creates starts with 0 points and
    with the role named in the sign-up metadata, [intern] when none is
    named; every other profile and every task stay as they were, so no
    balance becomes negative by it. *)
Theorem new_profile_starts_at_zero
    (now : timestamptz) (id : uuid) (user : User) (db : Database)
    (p : profiles.row) :
  db_profiles db !! user_id user = None ->
  (onAuthStateChange now id user db).1.2 = Some p ->
  profiles.points p = 0
  /\ profiles.role p = opt_or (meta_role user) "intern"
  /\ balance (onAuthStateChange now id user db).1.1 (user_id user) = Some 0
  /\ (forall w, w <> user_id user ->
        db_profiles (onAuthStateChange now id user db).1.1 !! w
        = db_profiles db !! w)
  /\ db_tasks (onAuthStateChange now id user db).1.1 = db_tasks db
  /\ (points_nonnegative db ->
      points_nonnegative (onAuthStateChange now id user db).1.1).
Proof.
  intros Hnone Hp.
  destruct (onAuthStateChange_created now id user db p Hnone Hp) as (-> & Hrow & _).
  subst p. simpl. repeat split.
  - unfold balance. simpl. by rewrite lookup_insert_eq.
  - intros w Hw. by rewrite lookup_insert_ne.
  - intros Hdb. unfold points_nonnegative. simpl.
    by apply map_Forall_insert_2.
Qed.

Lemma new_profile_starts_at_zero_witness :
  profiles.points
    (profiles.mk "profile-zoe" "zoe@example.org" (Some "Zoe") "intern"
       None None None 0 sample.created sample.created) = 0
  /\ balance (onAuthStateChange sample.created "profile-zoe"
                (mkUser "zoe" "zoe@example.org" (Some "Zoe") None None)
                (sample.db 0 "pending" 10)).1.1 "zoe" = Some 0.
Proof.
  pose proof (new_profile_starts_at_zero sample.created "profile-zoe"
                (mkUser "zoe" "zoe@example.org" (Some "Zoe") None None)
                (sample.db 0 "pending" 10)
                (profiles.mk "profile-zoe" "zoe@example.org" (Some "Zoe") "intern"
                   None None None 0 sample.created sample.created)) as H.
  destruct H as (H1 & _ & H3 & _); [vm_compute; reflexivity..|].
  by split.
Defined.

(** X15.  The role is whatever the sign-up metadata says: a new user whose
    metadata names [admin] or [employee] gets a profile with that role at
    the first sign-in and from then on passes the policies that let staff
    create and update every task. *)
Theorem metadata_role_is_trusted
    (now : timestamptz) (id : uuid) (user : User) (db : Database) (role : string) :
  db_profiles db !! user_id user = None ->
  profile_id_taken id (db_profiles db) = false ->
  meta_role user = Some role ->
  role = "admin" \/ role = "employee" ->
  let db' := (onAuthStateChange now id user db).1.1 in
  profiles.role <$> db_profiles db' !! user_id user = Some role
  /\ tasks_insert_check (as_user (user_id user)) db' = true
  /\ (forall t, tasks_update_visible (as_user (user_id user)) db' t = true).
Proof.
  intros Hnone Hid Hmeta Hrole. cbv zeta.
  assert (opt_or (meta_role user) "intern" = role) as Hopt
    by (rewrite Hmeta; destruct Hrole as [-> | ->]; reflexivity).
  assert (sql_in role ["intern"; "employee"; "admin"] = true) as Hcheck
    by (destruct Hrole as [-> | ->]; reflexivity).
  assert (sql_in role ["admin"; "employee"] = true) as Hstaff
    by (destruct Hrole as [-> | ->]; reflexivity).
  unfold onAuthStateChange. rewrite Hnone.
  unfold insert_profiles. cbv zeta.
  unfold profiles_insert_check. simpl pv_user_id. cbn [as_user bypassrls auth_uid].
  unfold sql_eq. rewrite String.eqb_refl. simpl negb. cbv iota.
  unfold profiles_check_constraints. simpl profiles.role. rewrite Hopt, Hcheck.
  simpl negb. cbv iota. rewrite Hid, Hnone. simpl.
  rewrite lookup_insert_eq. simpl. split; [done|].
  assert (exists_profile_with_role (as_user (user_id user))
            (set_profiles
               (<[user_id user :=
                    new_profile_row now id
                      (mkProfileValues (user_id user) (user_email user)
                         (opt_or_null (meta_full_name user)) (Some role)
                         (opt_or_null (meta_department user)) None None None)]>
                  (db_profiles db)) db) ["admin"; "employee"] = true) as Hexists.
  { unfold exists_profile_with_role. simpl. by rewrite lookup_insert_eq. }
  split.
  - unfold tasks_insert_check, policy.tasks_insert. by rewrite Hexists.
  - intros t. apply may_update_tasks_visible. by right.
Qed.

Lemma metadata_role_is_trusted_witness :
  profiles.role <$>
    db_profiles (onAuthStateChange sample.created "profile-zoe"
                   (mkUser "zoe" "zoe@example.org" (Some "Zoe") (Some "admin") None)
                   (sample.db 0 "pending" 10)).1.1 !! "zoe" = Some "admin"
  /\ tasks_insert_check (as_user "zoe")
       (onAuthStateChange sample.created "profile-zoe"
          (mkUser "zoe" "zoe@example.org" (Some "Zoe") (Some "admin") None)
          (sample.db 0 "pending" 10)).1.1 = true.
Proof.
  pose proof (metadata_role_is_trusted sample.created "profile-zoe"
                (mkUser "zoe" "zoe@example.org" (Some "Zoe") (Some "admin") None)
                (sample.db 0 "pending" 10) "admin") as H.
  destruct H as (H1 & H2 & _); [vm_compute; reflexivity..|by left|].
  by split.
Defined.

(** X16.  A signed-in user can insert a profile for nobody but
    themselves, only with one of the three roles, and never in place of an
    existing one: after a successful [INSERT] every profile that was
    stored before is unchanged. *)
Theorem insert_profiles_own_only
    (u : uuid) (now : timestamptz) (id : uuid) (v : profile_values)
    (db db' : Database) :
  insert_profiles (as_user u) now id v db = Ok db' ->
  pv_user_id v = u
  /\ default "intern" (pv_role v) ∈ ["intern"; "employee"; "admin"]
  /\ (forall w p, db_profiles db !! w = Some p -> db_profiles db' !! w = Some p)
  /\ db_profiles db' !! u = Some (new_profile_row now id v).
Proof.
  intros H. apply insert_profiles_Ok in H as (Hcheck & Hrole & _ & Hnone & ->).
  unfold profiles_insert_check in Hcheck. simpl in Hcheck.
  apply String.eqb_eq in Hcheck. subst u. split; [done|]. split.
  - unfold profiles_check_constraints, sql_in in Hrole. simpl in Hrole.
    rewrite !orb_true_iff in Hrole.
    destruct Hrole as [H|[H|[H|H]]]; try discriminate;
      apply String.eqb_eq in H; rewrite H; set_solver.
  - simpl. split.
    + intros w p Hw. rewrite lookup_insert_ne; [done|]. intros Heq. congruence.
    + apply lookup_insert_eq.
Qed.

Lemma insert_profiles_own_only_witness :
  pv_user_id (mkProfileValues "zoe" "zoe@example.org" None None None None None None)
  = "zoe"
  /\ db_profiles
       (set_profiles
          (<["zoe" := new_profile_row sample.now "profile-zoe"
               (mkProfileValues "zoe" "zoe@example.org" None None None None None None)]>
             (db_profiles (sample.db 0 "pending" 10)))
          (sample.db 0 "pending" 10)) !! "zoe"
     = Some (new_profile_row sample.now "profile-zoe"
               (mkProfileValues "zoe" "zoe@example.org" None None None None None None)).
Proof.
  pose proof (insert_profiles_own_only "zoe" sample.now "profile-zoe"
                (mkProfileValues "zoe" "zoe@example.org" None None None None None None)
                (sample.db 0 "pending" 10)
                (set_profiles
                   (<["zoe" := new_profile_row sample.now "profile-zoe"
                        (mkProfileValues "zoe" "zoe@example.org" None None None
                           None None None)]>
                      (db_profiles (sample.db 0 "pending" 10)))
                   (sample.db 0 "pending" 10))) as H.
  destruct H as (H1 & _ & _ & H4); [vm_compute; reflexivity|].
  by split.
Defined.

(** ** Chat *)

Lemma fetchMessages_user_table u toISOString a b m :
  (fetchMessages (as_user u) toISOString a b m).2 = m.
Proof. unfold fetchMessages. by destruct (String.eqb b ""). Qed.

Lemma insert_chat_messages_Ok s now id content a b db m m' :
  insert_chat_messages s now id content a b db m = Ok m' ->
  m !! id = None
  /\ m' = <[id := chat_messages.mk content a b None now]> m
  /\ (bypassrls s = true \/ auth_uid s = Some a).
Proof.
  unfold insert_chat_messages. cbv zeta.
  destruct (bypassrls s || chat_policy.insert s _) eqn:Hc; cbn [negb];
    [|discriminate].
  destruct (m !! id); [discriminate|].
  destruct (references_profile db (Some a) && references_profile db (Some b));
    cbn [negb]; [|discriminate].
  intros H. injection H as H. subst m'.
  repeat split. apply orb_true_iff in Hc as [Hc|Hc]; [by left|right].
  unfold chat_policy.insert in Hc. simpl in Hc.
  destruct (auth_uid s) as [y|]; [|discriminate].
  apply String.eqb_eq in Hc. by subst.
Qed.

Lemma chat_step_rows db m c i r :
  chat_step db m c !! i = Some r ->
  m !! i = Some r \/ (m !! i = None /\ chat_messages.read_at r = None).
Proof.
  destruct c as [u now iso id a b msg|u iso a b]; simpl.
  - unfold sendMessage.
    destruct (String.eqb (trim msg) "" || String.eqb b ""); [by left|].
    destruct (insert_chat_messages _ _ _ _ _ _ _ _) as [m'|] eqn:H; simpl;
      [|by left].
    rewrite fetchMessages_user_table.
    apply insert_chat_messages_Ok in H as (Hnone & -> & _).
    destruct (decide (id = i)) as [->|Hne].
    + rewrite lookup_insert_eq. intros [= <-]. by right.
    + rewrite lookup_insert_ne by done. by left.
  - rewrite fetchMessages_user_table. by left.
Qed.

(** X17.  Through [ChatSystem] no message is ever marked as read: the
    table has no [UPDATE] policy, so "Mark messages as read" matches no
    row for a signed-in user.  After any calls of [sendMessage] and
    [fetchMessages], a message that was stored before is unchanged and a
    new one has [read_at] NULL. *)
Theorem messages_are_never_marked_read
    (db : Database) (m : gmap string chat_messages.row) (cs : list chat_call)
    (i : uuid) (r : chat_messages.row) :
  chat_run db m cs !! i = Some r ->
  m !! i = Some r \/ (m !! i = None /\ chat_messages.read_at r = None).
Proof.
  unfold chat_run. revert m. induction cs as [|c cs IH]; intros m; simpl.
  - by left.
  - intros H. destruct (IH _ H) as [H1|[H1 Hr]].
    + apply chat_step_rows in H1. done.
    + right. split; [|done].
      destruct (m !! i) as [r0|] eqn:H0; [|done].
      assert (exists r1, chat_step db m c !! i = Some r1) as (r1 & Hr1); [|congruence].
      destruct c as [u now iso id a b msg|u iso a b]; simpl.
      * unfold sendMessage.
        destruct (String.eqb (trim msg) "" || String.eqb b ""); [by exists r0|].
        destruct (insert_chat_messages _ _ _ _ _ _ _ _) as [m'|] eqn:Hi; simpl;
          [|by exists r0].
        rewrite fetchMessages_user_table.
        apply insert_chat_messages_Ok in Hi as (Hnone & -> & _).
        exists r0. rewrite lookup_insert_ne; [done|]. intros ->. congruence.
      * rewrite fetchMessages_user_table. by exists r0.
Qed.

Lemma messages_are_never_marked_read_witness :
  (∅ : gmap string chat_messages.row) !! "m1"
    = Some (chat_messages.mk "hello" sample.ada sample.eve None sample.now)
  \/ ((∅ : gmap string chat_messages.row) !! "m1" = None
      /\ chat_messages.read_at
           (chat_messages.mk "hello" sample.ada sample.eve None sample.now) = None).
Proof.
  apply (messages_are_never_marked_read (sample.db 0 "pending" 10) ∅
           [SendMessage sample.ada sample.now sample.clock "m1" sample.ada
              sample.eve "hello";
            FetchMessages sample.eve sample.clock sample.eve sample.ada]
           "m1"
           (chat_messages.mk "hello" sample.ada sample.eve None sample.now)).
  vm_compute. reflexivity.
Defined.

Lemma between_true a b r :
  between a b r = true <->
  (chat_messages.sender_id r = a /\ chat_messages.receiver_id r = b)
  \/ (chat_messages.sender_id r = b /\ chat_messages.receiver_id r = a).
Proof.
  unfold between. rewrite orb_true_iff, !andb_true_iff, !String.eqb_eq. done.
Qed.

Lemma chat_select_user u r :
  chat_policy.select (as_user u) r = true <->
  chat_messages.sender_id r = u \/ chat_messages.receiver_id r = u.
Proof.
  unfold chat_policy.select. simpl. rewrite orb_true_iff, !String.eqb_eq. done.
Qed.

(** X18.  Whatever two user ids [fetchMessages] is given, a signed-in
    user is shown exactly the stored messages between those two of which
    the user is the sender or the receiver: never a message between two
    other people. *)
Theorem fetchMessages_shows_own_conversation
    (u : uuid) (toISOString : timestamptz) (a b : uuid)
    (m rows : gmap string chat_messages.row) (i : uuid) (r : chat_messages.row) :
  (fetchMessages (as_user u) toISOString a b m).1 = Some rows ->
  rows !! i = Some r <->
  m !! i = Some r
  /\ (chat_messages.sender_id r = u \/ chat_messages.receiver_id r = u)
  /\ ((chat_messages.sender_id r = a /\ chat_messages.receiver_id r = b)
      \/ (chat_messages.sender_id r = b /\ chat_messages.receiver_id r = a)).
Proof.
  unfold fetchMessages. destruct (String.eqb b ""); [discriminate|].
  simpl. intros [= <-]. unfold select_chat_messages.
  rewrite map_lookup_filter_Some. simpl.
  rewrite andb_true_iff, between_true, chat_select_user. tauto.
Qed.

Lemma fetchMessages_shows_own_conversation_witness :
  select_chat_messages (as_user sample.eve) sample.eve sample.ada
    (<["m1" := chat_messages.mk "hello" sample.ada sample.eve None sample.now]> ∅)
    !! "m1"
  = Some (chat_messages.mk "hello" sample.ada sample.eve None sample.now)
  <-> (<["m1" := chat_messages.mk "hello" sample.ada sample.eve None sample.now]> ∅
         : gmap string chat_messages.row) !! "m1"
      = Some (chat_messages.mk "hello" sample.ada sample.eve None sample.now)
      /\ (sample.ada = sample.eve \/ sample.eve = sample.eve)
      /\ ((sample.ada = sample.eve /\ sample.eve = sample.ada)
          \/ (sample.ada = sample.ada /\ sample.eve = sample.eve)).
Proof.
  apply (fetchMessages_shows_own_conversation sample.eve sample.clock sample.eve
           sample.ada
           (<["m1" := chat_messages.mk "hello" sample.ada sample.eve None sample.now]> ∅)
           (select_chat_messages (as_user sample.eve) sample.eve sample.ada
              (<["m1" := chat_messages.mk "hello" sample.ada sample.eve None
                           sample.now]> ∅))
           "m1" (chat_messages.mk "hello" sample.ada sample.eve None sample.now)).
  reflexivity.
Defined.



(** A message of a no-break space is blank: [sendMessage] returns at
    [!newMessage.trim()] and nothing is sent. *)
Example sendMessage_no_break_space :
  sendMessage (as_user sample.ada) sample.now sample.clock "m1" sample.ada
    sample.eve no_break_space (sample.db 0 "pending" 10) ∅
  = (∅, no_break_space, None).
Proof. reflexivity. Qed.

(** X20.  [sendMessage] stores nothing when the text is blank, when no
    user is selected, or when the component's [currentUser] is not the
    user of the session: nobody can send a message in another user's
    name. *)
Theorem sendMessage_sends_nothing
    (u : uuid) (now toISOString : timestamptz) (id : uuid)
    (currentUser selectedUser : uuid) (newMessage : string)
    (db : Database) (m : gmap string chat_messages.row) :
  blank newMessage \/ selectedUser = "" \/ currentUser <> u ->
  (sendMessage (as_user u) now toISOString id currentUser selectedUser
     newMessage db m).1.1 = m.
Proof.
  intros H. unfold sendMessage.
  destruct (String.eqb (trim newMessage) "" || String.eqb selectedUser "") eqn:E;
    [done|].
  apply orb_false_iff in E as [E1 E2].
  apply String.eqb_neq in E1, E2.
  destruct H as [H|[H|H]]; [by apply trim_blank in H|done|].
  destruct (insert_chat_messages _ _ _ _ _ _ _ _) as [m'|] eqn:Hi; [|done].
  apply insert_chat_messages_Ok in Hi as (_ & _ & [Hb|Hs]); [discriminate|].
  simpl in Hs. congruence.
Qed.

Lemma sendMessage_sends_nothing_witness :
  (sendMessage (as_user sample.ada) sample.now sample.clock "m1" sample.eve
     sample.ada "I quit" (sample.db 0 "pending" 10) ∅).1.1 = ∅.
Proof.
  apply (sendMessage_sends_nothing sample.ada sample.now sample.clock "m1"
           sample.eve sample.ada "I quit" (sample.db 0 "pending" 10) ∅).
  right. right. discriminate.
Defined.

(** ** The figures of the dashboards *)

Lemma status_checked (t : tasks.row) :
  tasks.check_constraints t = true ->
  tasks.status t = "pending" \/ tasks.status t = "in_progress"
  \/ tasks.status t = "completed" \/ tasks.status t = "overdue".
Proof.
  unfold tasks.check_constraints, sql_in. intros H.
  apply andb_true_iff in H as [H _]. simpl in H.
  rewrite !orb_true_iff in H.
  destruct H as [H|[H|[H|[H|H]]]]; try discriminate;
    apply String.eqb_eq in H; tauto.
Qed.

(** X21.  The three figures of the employee's dashboard count disjoint
    sets of tasks, and for tasks as the table stores them (their status
    passing the [CHECK] constraint) they add up to the number of tasks:
    each task is counted exactly once, as completed, active or overdue. *)
Theorem employee_figures_add_up (tasks : list tasks.row) :
  (EmployeeDashboard.completedTasks tasks + EmployeeDashboard.activeTasks tasks
   + EmployeeDashboard.overdueTasks tasks <= length tasks)%nat
  /\ (Forall (fun t => tasks.check_constraints t = true) tasks ->
      (EmployeeDashboard.completedTasks tasks + EmployeeDashboard.activeTasks tasks
       + EmployeeDashboard.overdueTasks tasks = length tasks)%nat).
Proof.
  unfold EmployeeDashboard.completedTasks, EmployeeDashboard.activeTasks,
    EmployeeDashboard.overdueTasks.
  split.
  - induction tasks as [|t ts IH]; simpl; [done|].
    destruct (String.eqb (tasks.status t) "completed") eqn:E1;
      [apply String.eqb_eq in E1; rewrite E1; simpl; lia|].
    destruct (String.eqb (tasks.status t) "pending") eqn:E2;
      [apply String.eqb_eq in E2; rewrite E2; simpl; lia|].
    destruct (String.eqb (tasks.status t) "in_progress") eqn:E3;
      [apply String.eqb_eq in E3; rewrite E3; simpl; lia|].
    destruct (String.eqb (tasks.status t) "overdue"); simpl; lia.
  - induction 1 as [|t ts Ht _ IH]; simpl; [done|].
    destruct (status_checked t Ht) as [E|[E|[E|E]]]; rewrite E; simpl; lia.
Qed.

Lemma employee_figures_add_up_witness :
  (EmployeeDashboard.completedTasks
     [sample.task "completed" 10 None None; sample.task "overdue" 5 None None;
      sample.task "pending" 5 None None]
   + EmployeeDashboard.activeTasks
       [sample.task "completed" 10 None None; sample.task "overdue" 5 None None;
        sample.task "pending" 5 None None]
   + EmployeeDashboard.overdueTasks
       [sample.task "completed" 10 None None; sample.task "overdue" 5 None None;
        sample.task "pending" 5 None None]
   = 3)%nat.
Proof.
  apply (proj2 (employee_figures_add_up
                  [sample.task "completed" 10 None None;
                   sample.task "overdue" 5 None None;
                   sample.task "pending" 5 None None])).
  repeat constructor.
Defined.

(** ** The leaderboard *)

Section leaderboard.
Lemma Array_insert_perm (x : profiles.row) (l : list profiles.row) :
  Array.insert by_points x l ≡ₚ x :: l.
Proof.
  induction l as [|y l IH]; simpl; [done|].
  destruct (by_points x y <=? 0); [done|].
  rewrite IH. apply Permutation_swap.
Qed.

Lemma Array_sort_perm (l : list profiles.row) : Array.sort by_points l ≡ₚ l.
Proof.
  induction l as [|x l IH]; simpl; [done|].
  by rewrite Array_insert_perm, IH.
Qed.

Lemma Array_insert_sorted (x : profiles.row) (l : list profiles.row) :
  StronglySorted more_points l ->
  StronglySorted more_points (Array.insert by_points x l).
Proof.
  induction 1 as [|y l Hl IH Hy]; simpl; [repeat constructor|].
  destruct (by_points x y <=? 0) eqn:E.
  - apply Z.leb_le in E. unfold by_points in E.
    constructor; [by constructor|]. constructor.
    + unfold more_points. lia.
    + eapply List.Forall_impl; [|exact Hy]. unfold more_points. intros z. lia.
  - apply Z.leb_gt in E. unfold by_points in E. constructor; [done|].
    rewrite Array_insert_perm. constructor; [|done].
    unfold more_points. lia.
Qed.

Lemma Array_sort_sorted (l : list profiles.row) :
  StronglySorted more_points (Array.sort by_points l).
Proof.
  induction l as [|x l IH]; simpl; [constructor|].
  by apply Array_insert_sorted.
Qed.

Lemma StronglySorted_take (n : nat) (l : list profiles.row) :
  StronglySorted more_points l -> StronglySorted more_points (take n l).
Proof.
  intros H. revert n. induction H as [|y l Hl IH Hy]; intros [|n]; simpl;
    try constructor; [apply IH|].
  by apply Forall_take.
Qed.

Lemma elem_of_drop_elem (n : nat) (l : list profiles.row) (b : profiles.row) :
  b ∈ drop n l -> b ∈ l.
Proof.
  revert n. induction l as [|y l IH]; intros [|n]; simpl; try done.
  intros H. apply elem_of_cons. right. by eapply IH.
Qed.

Lemma StronglySorted_take_drop (n : nat) (l : list profiles.row) :
  StronglySorted more_points l ->
  forall a b, a ∈ take n l -> b ∈ drop n l -> more_points a b.
Proof.
  intros H. revert n. induction H as [|y l Hl IH Hy]; intros [|n] a b; simpl;
    try (by intros ?%elem_of_nil).
  intros Ha Hb. apply elem_of_cons in Ha as [->|Ha].
  - rewrite Forall_forall in Hy. apply Hy. by eapply elem_of_drop_elem.
  - by eapply IH.
Qed.
End leaderboard.

Lemma elem_of_take_elem (n : nat) (l : list profiles.row) (b : profiles.row) :
  b ∈ take n l -> b ∈ l.
Proof.
  revert n. induction l as [|y l IH]; intros [|n]; simpl; try done.
  - by intros ?%elem_of_nil.
  - intros [->|H]%elem_of_cons; apply elem_of_cons; [by left|right].
    by eapply IH.
Qed.

Lemma elem_of_interns (users : list profiles.row) (p : profiles.row) :
  p ∈ List.filter (fun u => String.eqb (profiles.role u) "intern") users
  <-> p ∈ users /\ profiles.role p = "intern".
Proof.
  rewrite !list_elem_of_In, filter_In, String.eqb_eq. done.
Qed.

(** X22.  The leaderboard of the admin's dashboard holds at most five
    users, all of them interns of the list, in descending order of
    points, and they are the best: an intern who is not on it has no more
    points than anyone who is, and is left out only when five are
    shown. *)
Theorem topInterns_are_the_best (users : list profiles.row) :
  (length (AdminDashboard.topInterns users) <= 5)%nat
  /\ (forall p, p ∈ AdminDashboard.topInterns users ->
        p ∈ users /\ profiles.role p = "intern")
  /\ StronglySorted more_points (AdminDashboard.topInterns users)
  /\ (forall u, u ∈ users -> profiles.role u = "intern" ->
        u ∈ AdminDashboard.topInterns users
        \/ (length (AdminDashboard.topInterns users) = 5%nat
            /\ forall p, p ∈ AdminDashboard.topInterns users -> more_points p u)).
Proof.
  unfold AdminDashboard.topInterns, Array.slice0.
  change (fun a b : profiles.row => profiles.points b - profiles.points a)
    with by_points.
  set (interns := List.filter _ users).
  set (sorted := Array.sort by_points interns).
  split; [|split; [|split]].
  - rewrite length_take. lia.
  - intros p H. apply elem_of_take_elem in H. unfold sorted in H.
    rewrite Array_sort_perm in H. by apply elem_of_interns.
  - apply StronglySorted_take, Array_sort_sorted.
  - intros u Hu Hr.
    assert (u ∈ sorted) as Hs
      by (unfold sorted; rewrite Array_sort_perm; by apply elem_of_interns).
    rewrite <- (take_drop 5 sorted) in Hs.
    apply elem_of_app in Hs as [Hs|Hs]; [by left|right].
    split.
    + apply length_take_le.
      destruct (decide (5 <= length sorted)%nat) as [|Hlt]; [done|].
      rewrite drop_ge in Hs by lia. by apply elem_of_nil in Hs.
    + intros p Hp. eapply StronglySorted_take_drop; [|done..].
      apply Array_sort_sorted.
Qed.

Lemma by_points_insert_filter (k : Z) (x : profiles.row) (l : list profiles.row) :
  StronglySorted more_points l ->
  List.filter (fun p => profiles.points p =? k) (Array.insert by_points x l)
  = if profiles.points x =? k
    then x :: List.filter (fun p => profiles.points p =? k) l
    else List.filter (fun p => profiles.points p =? k) l.
Proof.
  induction 1 as [|y l Hl IH Hy]; simpl; [done|].
  destruct (by_points x y <=? 0) eqn:E; simpl; [done|].
  apply Z.leb_gt in E. unfold by_points in E. rewrite IH.
  destruct (profiles.points x =? k) eqn:Ex; [|done].
  apply Z.eqb_eq in Ex.
  assert ((profiles.points y =? k) = false) as -> by (apply Z.eqb_neq; lia).
  done.
Qed.

(** X23.  The sort of the leaderboard arranges the users it is given,
    none added and none dropped, in descending order of points, and it is
    stable: users with equal points stay in the order in which they
    came. *)
Theorem leaderboard_sort_is_stable (l : list profiles.row) :
  Array.sort (fun a b => profiles.points b - profiles.points a) l ≡ₚ l
  /\ StronglySorted more_points
       (Array.sort (fun a b => profiles.points b - profiles.points a) l)
  /\ (forall k,
        List.filter (fun p => profiles.points p =? k)
          (Array.sort (fun a b => profiles.points b - profiles.points a) l)
        = List.filter (fun p => profiles.points p =? k) l).
Proof.
  change (fun a b : profiles.row => profiles.points b - profiles.points a)
    with by_points.
  split; [apply Array_sort_perm|]. split; [apply Array_sort_sorted|].
  intros k. induction l as [|x l IH]; simpl; [done|].
  rewrite by_points_insert_filter by apply Array_sort_sorted.
  rewrite IH. by destruct (profiles.points x =? k).
Qed.

Lemma topInterns_are_the_best_witness :
  sample.profile "p1" "intern" 1
    ∈ AdminDashboard.topInterns
        [sample.profile "p1" "intern" 1; sample.profile "p2" "intern" 7;
         sample.profile "p3" "employee" 9; sample.profile "p4" "intern" 3]
  \/ (length (AdminDashboard.topInterns
                [sample.profile "p1" "intern" 1; sample.profile "p2" "intern" 7;
                 sample.profile "p3" "employee" 9; sample.profile "p4" "intern" 3])
      = 5%nat
      /\ forall p,
           p ∈ AdminDashboard.topInterns
                 [sample.profile "p1" "intern" 1; sample.profile "p2" "intern" 7;
                  sample.profile "p3" "employee" 9; sample.profile "p4" "intern" 3] ->
           more_points p (sample.profile "p1" "intern" 1)).
Proof.
  apply (proj2 (proj2 (proj2 (topInterns_are_the_best
           [sample.profile "p1" "intern" 1; sample.profile "p2" "intern" 7;
            sample.profile "p3" "employee" 9; sample.profile "p4" "intern" 3])))).
  - apply list_elem_of_here.
  - reflexivity.
Defined.

(** ** Uploads, turn by turn *)

Module FileUpload_invariants.
Import FileUpload.

Section collaborators.
Variable randomUUID : nat -> string.
Variable uploadError : list (string * File.t) -> string -> File.t -> option string.
Variable dbError : list file_uploads.row -> file_uploads.row -> option string.
Variable taskId : option string.
Variable userId : string.

Local Abbreviation upload_one := (upload_one randomUUID uploadError dbError taskId userId).
Local Abbreviation uploadFiles := (uploadFiles randomUUID uploadError dbError taskId userId).
Local Abbreviation handleFileSelect :=
  (FileUpload_events.handleFileSelect randomUUID uploadError dbError taskId userId).

Lemma setFiles_at_turn (f : UploadFile) (g : UploadFile -> UploadFile)
    (l : list UploadFile) :
  (forall e, id (g e) = id e /\ file (g e) = file e /\ settled (g e)) ->
  Forall2 (turn f) l (setFiles_at (id f) g l).
Proof.
  intros Hg. unfold setFiles_at. induction l as [|e l IH]; simpl; constructor;
    [|done].
  unfold turn. destruct (String.eqb (id e) (id f)) eqn:E.
  - destruct (Hg e) as (? & ? & ?). repeat split; try done.
    apply String.eqb_eq in E. done.
  - apply String.eqb_neq in E. repeat split; done.
Qed.

(** One turn: the entries, the toasts, the bucket and the table. *)
Lemma upload_one_turn (w : World) (f : UploadFile) :
  Forall2 (turn f) (files w) (files (upload_one w f))
  /\ length (toasts (upload_one w f)) = S (length (toasts w))
  /\ (exists o, objects (upload_one w f) = (objects w ++ o)%list
        /\ exists r, rows (upload_one w f) = (rows w ++ r)%list
        /\ (length r <= length o <= 1)%nat
        /\ Forall (fun x => exists y, (file_uploads.file_path x, y) ∈ o) r).
Proof.
  unfold FileUpload.upload_one, FileUpload.try_upload.
  destruct (validate (file f)) as [message|]; simpl.
  { split; [apply setFiles_at_turn; intros e; repeat split; by right|].
    split; [rewrite length_app; simpl; lia|].
    exists []. rewrite app_nil_r. split; [done|]. exists [].
    rewrite app_nil_r. repeat split; simpl; try lia; done. }
  destruct (uploadError _ _ _) as [message|]; simpl.
  { split; [apply setFiles_at_turn; intros e; repeat split; by right|].
    split; [rewrite length_app; simpl; lia|].
    exists []. rewrite app_nil_r. split; [done|]. exists [].
    rewrite app_nil_r. repeat split; simpl; try lia; done. }
  destruct (dbError _ _) as [message|]; simpl.
  { split; [apply setFiles_at_turn; intros e; repeat split; by right|].
    split; [rewrite length_app; simpl; lia|].
    eexists. split; [done|]. exists [].
    rewrite app_nil_r. repeat split; simpl; try lia; done. }
  split; [apply setFiles_at_turn; intros e; repeat split; by left|].
  split; [rewrite length_app; simpl; lia|].
  eexists. split; [done|]. eexists. split; [done|].
  repeat split; simpl; try lia.
  constructor; [|done]. simpl. eexists. apply list_elem_of_here.
Qed.

Lemma turns_nil (l : list UploadFile) : Forall2 (turns []) l l.
Proof.
  induction l as [|e l IH]; constructor; [|done].
  unfold turns. repeat split; try done. simpl. by intros ?%elem_of_nil.
Qed.

Lemma turns_cons (f : UploadFile) (fs : list UploadFile)
    (l l1 l2 : list UploadFile) :
  Forall2 (turn f) l l1 -> Forall2 (turns fs) l1 l2 ->
  Forall2 (turns (f :: fs)) l l2.
Proof.
  intros H1. revert l2. induction H1 as [|e e1 l l1 He _ IH]; intros l2 H2.
  - inversion H2. constructor.
  - inversion H2 as [|? e2 ? l2' He2 H2']; subst. constructor; [|by apply IH].
    destruct He as (Hi & Hf & Hs & Hn).
    destruct He2 as (Hi2 & Hf2 & Hs2 & Hn2 & Hp2).
    assert (settled e -> settled e1) as Hp1.
    { intros Hse. destruct (decide (id e = id f)) as [E|E]; [by apply Hs|].
      by rewrite Hn. }
    unfold turns. simpl. repeat split; try congruence.
    + intros [E|E]%elem_of_cons; [by apply Hp2, Hs|].
      apply Hs2. by rewrite Hi.
    + intros Hnot. apply not_elem_of_cons in Hnot as [E1 E2].
      rewrite Hn2, Hn; [done..|]. by rewrite Hi.
    + intros Hse. by apply Hp2, Hp1.
Qed.

Lemma uploadFiles_turns (fs : list UploadFile) (w : World) :
  Forall2 (turns fs) (files w) (files (uploadFiles fs w))
  /\ length (toasts (uploadFiles fs w)) = (length (toasts w) + length fs)%nat
  /\ (exists o, objects (uploadFiles fs w) = (objects w ++ o)%list
        /\ exists r, rows (uploadFiles fs w) = (rows w ++ r)%list
        /\ (length r <= length o <= length fs)%nat
        /\ Forall (fun x => exists y, (file_uploads.file_path x, y) ∈ o) r).
Proof.
  unfold FileUpload.uploadFiles. revert w.
  induction fs as [|f fs IH]; intros w; simpl.
  - split; [apply turns_nil|]. split; [lia|].
    exists []. rewrite app_nil_r. split; [done|]. exists [].
    rewrite app_nil_r. repeat split; simpl; try lia; done.
  - destruct (upload_one_turn w f) as (Hf & Ht & o1 & Ho1 & r1 & Hr1 & Hl1 & Hp1).
    destruct (IH (upload_one w f)) as (Hf' & Ht' & o2 & Ho2 & r2 & Hr2 & Hl2 & Hp2).
    split; [by eapply turns_cons|]. split; [lia|].
    exists (o1 ++ o2)%list. split; [by rewrite Ho2, Ho1, app_assoc|].
    exists (r1 ++ r2)%list. split; [by rewrite Hr2, Hr1, app_assoc|].
    split; [rewrite !length_app; lia|].
    apply Forall_app. split.
    + eapply List.Forall_impl; [|exact Hp1]. intros x (y & Hy). exists y.
      apply elem_of_app. by left.
    + eapply List.Forall_impl; [|exact Hp2]. intros x (y & Hy). exists y.
      apply elem_of_app. by right.
Qed.
End collaborators.
End FileUpload_invariants.

Module FileUpload_batches.
Import FileUpload.

Section collaborators.
Variable randomUUID : nat -> string.
Variable uploadError : list (string * File.t) -> string -> File.t -> option string.
Variable dbError : list file_uploads.row -> file_uploads.row -> option string.
Variable taskId : option string.
Variable userId : string.

Local Abbreviation upload_one := (upload_one randomUUID uploadError dbError taskId userId).
Local Abbreviation uploadFiles := (uploadFiles randomUUID uploadError dbError taskId userId).
Local Abbreviation handleFileSelect :=
  (FileUpload_events.handleFileSelect randomUUID uploadError dbError taskId userId).
Local Abbreviation newFiles := (FileUpload_events.newFiles randomUUID).

Lemma newFiles_file (n : nat) (selectedFiles : list File.t) :
  map file (newFiles n selectedFiles) = selectedFiles.
Proof.
  revert n. induction selectedFiles as [|f fs IH]; intros n; simpl; [done|].
  by rewrite IH.
Qed.

Lemma newFiles_length (n : nat) (selectedFiles : list File.t) :
  length (newFiles n selectedFiles) = length selectedFiles.
Proof. by rewrite <- (newFiles_file n selectedFiles) at 2; rewrite length_map. Qed.

(** X24.  Whatever files are selected and whatever the storage and the
    database answer, [handleFileSelect] never stores an object or a
    metadata row for a file above 5 MiB: if all objects and rows were
    within the ceiling before, they are after. *)
Theorem handleFileSelect_within_ceiling (selectedFiles : list File.t) (w : World) :
  within_ceiling w ->
  within_ceiling (handleFileSelect selectedFiles w).
Proof.
  intros Hw. unfold FileUpload_events.handleFileSelect.
  by apply FileUpload_facts.uploadFiles_within_ceiling.
Qed.

(** X25.  An upload only ever appends: the objects and the metadata rows
    stored before [handleFileSelect] are still there, in place, after it;
    it adds at most one object per selected file and never more rows than
    objects; and if every row pointed at a stored object before, every
    row does after (an object may be left without a row, not a row
    without an object). *)
Theorem handleFileSelect_appends (selectedFiles : list File.t) (w : World) :
  exists o r,
    objects (handleFileSelect selectedFiles w) = (objects w ++ o)%list
    /\ rows (handleFileSelect selectedFiles w) = (rows w ++ r)%list
    /\ (length r <= length o <= length selectedFiles)%nat
    /\ (rows_have_objects w -> rows_have_objects (handleFileSelect selectedFiles w)).
Proof.
  unfold FileUpload_events.handleFileSelect. cbv zeta.
  set (w0 := mkWorld _ _ _ _ _).
  destruct (FileUpload_invariants.uploadFiles_turns randomUUID uploadError dbError
              taskId userId (newFiles (drawn w) selectedFiles) w0)
    as (_ & _ & o & Ho & r & Hr & Hl & Hp).
  rewrite newFiles_length in Hl.
  exists o, r. change (objects w0) with (objects w) in Ho.
  change (rows w0) with (rows w) in Hr.
  repeat split; try done; try lia.
  intros Hw. unfold rows_have_objects. rewrite Ho, Hr. apply Forall_app. split.
  - eapply List.Forall_impl; [|exact Hw]. intros x (y & Hy). exists y.
    apply elem_of_app. by left.
  - eapply List.Forall_impl; [|exact Hp]. intros x (y & Hy). exists y.
    apply elem_of_app. by right.
Qed.

Lemma turns_map (fs l l' : list UploadFile) :
  Forall2 (turns fs) l l' ->
  map id l' = map id l /\ map file l' = map file l
  /\ ((forall e, e ∈ l -> id e ∈ map id fs) -> Forall settled l').
Proof.
  induction 1 as [|e e' l l' He _ IH]; simpl; [by repeat split|].
  destruct He as (Hi & Hf & Hs & _). destruct IH as (IH1 & IH2 & IH3).
  repeat split; [congruence..|].
  intros Hall. constructor.
  - apply Hs, Hall, list_elem_of_here.
  - apply IH3. intros x Hx. apply Hall. by apply list_elem_of_further.
Qed.

(** X26.  [handleFileSelect] adds one entry per selected file, in the
    order of the selection, behind the entries already listed; when it is
    done none of the new entries is left as 'uploading', each is
    'success' or 'error'; the old entries keep their place, their [id]
    and their file; and one toast was shown per selected file. *)
Theorem handleFileSelect_settles (selectedFiles : list File.t) (w : World) :
  exists old new,
    files (handleFileSelect selectedFiles w) = (old ++ new)%list
    /\ map id old = map id (files w)
    /\ map file old = map file (files w)
    /\ map file new = selectedFiles
    /\ Forall settled new
    /\ length (toasts (handleFileSelect selectedFiles w))
       = (length (toasts w) + length selectedFiles)%nat.
Proof.
  unfold FileUpload_events.handleFileSelect. cbv zeta.
  set (w0 := mkWorld _ _ _ _ _).
  destruct (FileUpload_invariants.uploadFiles_turns randomUUID uploadError dbError
              taskId userId (newFiles (drawn w) selectedFiles) w0)
    as (Hf & Ht & _).
  change (files w0) with (files w ++ newFiles (drawn w) selectedFiles)%list in Hf.
  apply Forall2_app_inv_l in Hf as (old & new & Hold & Hnew & Heq).
  exists old, new. split; [done|].
  destruct (turns_map _ _ _ Hold) as (Ho1 & Ho2 & _).
  destruct (turns_map _ _ _ Hnew) as (_ & Hn2 & Hn3).
  repeat split; try done.
  - by rewrite Hn2, newFiles_file.
  - apply Hn3. intros e He. apply list_elem_of_In, in_map. by apply list_elem_of_In.
  - by rewrite Ht, newFiles_length.
Qed.

End collaborators.

Lemma handleFileSelect_within_ceiling_witness :
  within_ceiling
    (FileUpload_events.handleFileSelect (fun _ => "uuid") (fun _ _ _ => None)
       (fun _ _ => None) None "ada"
       [File.mk "scan.png" "image/png" (6 * 1024 * 1024);
        File.mk "notes.txt" "text/plain" 120]
       (mkWorld [] [] [] [] 0)).
Proof.
  apply (handleFileSelect_within_ceiling (fun _ => "uuid") (fun _ _ _ => None)
           (fun _ _ => None) None "ada").
  split; constructor.
Defined.

Lemma handleFileSelect_appends_witness :
  exists o r,
    objects (FileUpload_events.handleFileSelect (fun _ => "uuid") (fun _ _ _ => None)
               (fun _ _ => None) None "ada"
               [File.mk "notes.txt" "text/plain" 120] (mkWorld [] [] [] [] 0))
    = ([] ++ o)%list
    /\ rows (FileUpload_events.handleFileSelect (fun _ => "uuid") (fun _ _ _ => None)
               (fun _ _ => None) None "ada"
               [File.mk "notes.txt" "text/plain" 120] (mkWorld [] [] [] [] 0))
      = ([] ++ r)%list
    /\ (length r <= length o <= 1)%nat
    /\ (rows_have_objects (mkWorld [] [] [] [] 0) ->
        rows_have_objects
          (FileUpload_events.handleFileSelect (fun _ => "uuid") (fun _ _ _ => None)
             (fun _ _ => None) None "ada"
             [File.mk "notes.txt" "text/plain" 120] (mkWorld [] [] [] [] 0))).
Proof.
  apply (handleFileSelect_appends (fun _ => "uuid") (fun _ _ _ => None)
           (fun _ _ => None) None "ada"
           [File.mk "notes.txt" "text/plain" 120] (mkWorld [] [] [] [] 0)).
Defined.

End FileUpload_batches.

(** ** The string methods *)

#[local] Arguments String.append !s1 s2 : simpl nomatch.

Lemma append_assoc (a b c : string) : ((a ++ b) ++ c = a ++ (b ++ c))%string.
Proof. induction a as [|x a IH]; simpl; [done|]. f_equal. exact IH. Qed.

Lemma append_nil_r (a : string) : (a ++ "" = a)%string.
Proof. induction a as [|x a IH]; simpl; [done|]. f_equal. exact IH. Qed.

Lemma length_append (a b : string) :
  String.length (a ++ b) = (String.length a + String.length b)%nat.
Proof. induction a as [|x a IH]; simpl; [done|]. f_equal. exact IH. Qed.

Lemma startsWith_spec (x p : string) :
  js.startsWith x p = true <-> exists r, x = (p ++ r)%string.
Proof.
  unfold js.startsWith. revert p. induction x as [|b x IH]; intros p; simpl.
  - destruct p as [|a p].
    + split; [by exists ""|done].
    + split; [discriminate|]. intros (r & Hr). discriminate.
  - destruct p as [|a p].
    + split; [by eexists|done].
    + destruct (ascii_dec a b) as [->|Hab].
      * rewrite IH. split; intros (r & Hr); exists r; simpl in *; congruence.
      * split; [discriminate|]. intros (r & Hr). simpl in Hr. congruence.
Qed.

Lemma substring_all (s : string) : String.substring 0 (String.length s) s = s.
Proof. induction s as [|c s IH]; simpl; [done|]. by rewrite IH. Qed.

Lemma substring_skip (p s : string) (m : nat) :
  String.substring (String.length p) m (p ++ s) = String.substring 0 m s.
Proof. induction p as [|c p IH]; simpl; done. Qed.

Lemma substring_split (x : string) (k m : nat) :
  (k + m)%nat = String.length x ->
  x = (String.substring 0 k x ++ String.substring k m x)%string.
Proof.
  revert k. induction x as [|c x IH]; intros k H; simpl in H.
  - assert (k = 0%nat) as -> by lia. assert (m = 0%nat) as -> by lia. done.
  - destruct k as [|k]; simpl.
    + simpl in H. subst m. simpl. by rewrite substring_all.
    + f_equal. apply IH. lia.
Qed.

Lemma endsWith_spec (x s : string) :
  js.endsWith x s = true <-> exists p, x = (p ++ s)%string.
Proof.
  unfold js.endsWith. cbv zeta. rewrite andb_true_iff, Nat.leb_le, String.eqb_eq.
  split.
  - intros [Hle Hsub].
    exists (String.substring 0 (String.length x - String.length s) x).
    pose proof (substring_split x (String.length x - String.length s)
                  (String.length s) ltac:(lia)) as H.
    by rewrite Hsub in H.
  - intros (p & ->). rewrite length_append. split; [lia|].
    replace (String.length p + String.length s - String.length s)%nat
      with (String.length p) by lia.
    by rewrite substring_skip, substring_all.
Qed.

(** X28.  [uploadFiles] lets a file through to the storage exactly when
    it is at most 5 MiB and its MIME type begins with [image/] or [text/],
    or its name ends in [.doc], [.docx] or, literally,
    [application/pdf]; the MIME type [application/pdf] itself plays no
    part. *)
Theorem accepted_files (f : File.t) :
  FileUpload.validate f = None <->
  File.size f <= 5 * 1024 * 1024
  /\ ((exists r, File.type f = "image/" ++ r)
      \/ (exists r, File.type f = "text/" ++ r)
      \/ (exists p, File.name f = p ++ ".doc")
      \/ (exists p, File.name f = p ++ ".docx")
      \/ (exists p, File.name f = p ++ "application/pdf"))%string.
Proof.
  rewrite FileUpload_facts.validate_None, FileUpload_facts.isAllowed_unfold.
  rewrite !orb_true_iff, !startsWith_spec, !endsWith_spec.
  unfold ceiling. tauto.
Qed.

Lemma rev_app_append (s1 s2 : string) :
  String.rev_app s1 s2 = (String.rev s1 ++ s2)%string.
Proof.
  unfold String.rev. revert s2. induction s1 as [|a s1 IH]; intros s2; simpl; [done|].
  rewrite (IH (String a s2)), (IH (String a "")).
  generalize (String.rev_app s1 ""). intros r. by rewrite append_assoc.
Qed.

Lemma rev_cons (c : ascii) (acc : string) :
  String.rev (String c acc) = (String.rev acc ++ String c "")%string.
Proof. unfold String.rev at 1. simpl. apply rev_app_append. Qed.

Lemma split_from_nonempty (acc x : string) (sep : ascii) :
  js.split_from acc x sep <> [].
Proof.
  revert acc. induction x as [|c x IH]; intros acc; simpl; [done|].
  destruct (Ascii.eqb c sep); [done|apply IH].
Qed.

Lemma last_cons_nonempty (a d : string) (l : list string) :
  l <> [] -> List.last (a :: l) d = List.last l d.
Proof. by destruct l. Qed.

Lemma pop_split_from (acc x : string) (sep : ascii) :
  ~ In sep (list_ascii_of_string acc) ->
  (exists p, (String.rev acc ++ x)%string
             = (p ++ js.pop (js.split_from acc x sep))%string)
  /\ ~ In sep (list_ascii_of_string (js.pop (js.split_from acc x sep)))
  /\ (~ In sep (list_ascii_of_string x) ->
      js.pop (js.split_from acc x sep) = (String.rev acc ++ x)%string).
Proof.
  revert acc. induction x as [|c x IH]; intros acc Hacc.
  - change (js.pop (js.split_from acc "" sep)) with (String.rev acc).
    rewrite append_nil_r. repeat split.
    + by exists "".
    + rewrite list_ascii_rev. intros H. by apply in_rev in H.
  - cbn [js.split_from]. destruct (Ascii.eqb c sep) eqn:E.
    + apply Ascii.eqb_eq in E. subst c.
      assert (js.pop (String.rev acc :: js.split_from "" x sep)
              = js.pop (js.split_from "" x sep)) as ->
        by apply last_cons_nonempty, split_from_nonempty.
      destruct (IH "" (fun H => H)) as ((p & Hp) & Hno & _).
      change (String.rev "" ++ x)%string with x in Hp.
      repeat split.
      * exists (String.rev acc ++ String sep p)%string.
        rewrite append_assoc.
        change (String sep p ++ js.pop (js.split_from "" x sep))%string
          with (String sep (p ++ js.pop (js.split_from "" x sep)))%string.
        by rewrite <- Hp.
      * exact Hno.
      * intros Hn. exfalso. apply Hn. simpl. by left.
    + apply Ascii.eqb_neq in E.
      assert (~ In sep (list_ascii_of_string (String c acc))) as Hacc'
        by (simpl; intros [H|H]; [congruence|done]).
      destruct (IH (String c acc) Hacc') as ((p & Hp) & Hno & Hall).
      rewrite rev_cons, append_assoc in Hp, Hall.
      change (String c "" ++ x)%string with (String c x) in Hp, Hall.
      repeat split; [by exists p|done|].
      intros Hn. apply Hall. intros H. apply Hn. simpl. by right.
Qed.

(** X29.  The extension [uploadFiles] gives the stored file,
    [name.split('.').pop()], is the end of the file name, holds no dot,
    and for a name without a dot it is the whole name. *)
Theorem file_extension (name : string) :
  (exists p, name = (p ++ js.pop (js.split name "."))%string)
  /\ ~ In "."%char (list_ascii_of_string (js.pop (js.split name ".")))
  /\ (~ In "."%char (list_ascii_of_string name) ->
      js.pop (js.split name ".") = name).
Proof.
  unfold js.split.
  destruct (pop_split_from "" name "." (fun H => H)) as (H1 & H2 & H3).
  done.
Qed.

Lemma file_extension_witness : js.pop (js.split "Makefile" ".") = "Makefile".
Proof.
  apply (proj2 (proj2 (file_extension "Makefile"))).
  vm_compute. intuition discriminate.
Defined.
